(** * ephios: configuration loader, page context, consequence view,
      simple-resource models and the qualification relation

    A shallow embedding of
      - ephios/settings.py
      - ephios/core/context.py
      - ephios/user_management/views/consequences.py
      - ephios/plugins/simpleresource/models.py
      - ephios/user_management/migrations/0004_auto_20201014_1648.py
    Python dictionaries are finite maps, lists are lists, exceptions are
    the [Raise] branch of a result type, and module-level code of
    settings.py is one function from the process environment to the
    settings it binds. *)

From stdpp Require Import base option strings list gmap fin_maps.
From Stdlib Require Import ZArith Ascii.

Open Scope string_scope.
Open Scope list_scope.

(** ** Python exceptions and results *)

Inductive Exception : Type :=
  | ImproperlyConfigured (var : string)   (* django.core.exceptions, raised by environ *)
  | ValueError (var : string)             (* a cast or URL parser rejected the value *)
  | IndexError
  | AttributeError (name : string)
  | KeyError (key : string)
  | OSError (path : string)
  | MultiValueDictKeyError (key : string) (* subclass of KeyError *)
  | Http404
  | MultipleObjectsReturned
  | ProtectedError
  | PermissionDenied.

Inductive Result (A : Type) : Type :=
  | Ok (a : A)
  | Raise (e : Exception).
Arguments Ok {A} a.
Arguments Raise {A} e.

Definition bind {A B : Type} (r : Result A) (k : A -> Result B) : Result B :=
  match r with
  | Ok a => k a
  | Raise e => Raise e
  end.

Notation "x <- r ;; k" := (bind r (fun x => k))
  (at level 100, r at next level, right associativity).

Definition succeeds {A : Type} (r : Result A) : Prop := exists a, r = Ok a.

(** ** ephios/settings.py *)

Module Settings.

(** A settings dictionary produced by one of environ's URL parsers. *)
Abbreviation Conf := (gmap string string).

(** The casts and URL parsers of the django-environ package, which
    settings.py calls through [env]: the package is a dependency, so its
    functions are taken as they are. *)
Record Environ : Type := {
  cast_bool : string -> bool;
  cast_int : string -> option Z;
  cast_list : string -> list string;
  db_url_config : string -> option Conf;
  cache_url_config : string -> option Conf;
  email_url_config : string -> option Conf;
}.

(** What the loader reads from the host besides the environment. *)
Record Host : Type := {
  entry_points : string -> list (string * string); (* group -> (name, value) *)
  package_version : string -> option string;       (* importlib_metadata.version *)
  path_exists : string -> bool;                    (* os.path.exists *)
  mkdir : string -> bool;       (* os.mkdir(path) succeeds *)
  makedirs : string -> bool;    (* Path(path).mkdir(parents=True, exist_ok=True) succeeds *)
  vapid_from_file : string -> option string;       (* public key of the key file *)
  getaddresses : string -> list (string * string); (* email.utils.getaddresses *)
}.

Section Env.
Variable lib : Environ.
Variable environ : gmap string string.

(** env.str(var) / env(var): a missing variable raises. The value is
    handed on as it is stored, which is what environ does for a value
    that does not start with "$"; a value that starts with "$" environ
    takes as the name of another variable to read instead, and this
    lookup does not follow such references (see [literal] below). *)
Definition env_str (var : string) : Result string :=
  match environ !! var with
  | Some v => Ok v
  | None => Raise (ImproperlyConfigured var)
  end.

(** env.str(var, default=d) with a string default. *)
Definition env_str_default (var d : string) : string :=
  default d (environ !! var).

(** env.str(var, default=None): with the default None an empty value
    counts as unset. *)
Definition env_str_none (var : string) : option string :=
  match environ !! var with
  | Some v => if bool_decide (v = "") then None else Some v
  | None => None
  end.

Definition env_bool (var : string) : Result bool :=
  v <- env_str var ;; Ok (cast_bool lib v).

Definition env_bool_default (var : string) (d : bool) : bool :=
  match environ !! var with
  | Some v => cast_bool lib v
  | None => d
  end.

Definition env_list (var : string) : Result (list string) :=
  v <- env_str var ;; Ok (cast_list lib v).

Definition env_int_default (var : string) (d : Z) : Result Z :=
  match environ !! var with
  | Some v =>
      match cast_int lib v with
      | Some n => Ok n
      | None => Raise (ValueError var)
      end
  | None => Ok d
  end.

Definition parse_url (parser : string -> option Conf) (var v : string) : Result Conf :=
  match parser v with
  | Some c => Ok c
  | None => Raise (ValueError var)
  end.

(** env.db_url() reads DATABASE_URL. *)
Definition env_db_url : Result Conf :=
  v <- env_str "DATABASE_URL" ;; parse_url (db_url_config lib) "DATABASE_URL" v.

(** env.cache_url(default=d) reads CACHE_URL. *)
Definition env_cache_url (d : string) : Result Conf :=
  parse_url (cache_url_config lib) "CACHE_URL" (env_str_default "CACHE_URL" d).

Definition env_email_url (var : string) : Result Conf :=
  v <- env_str var ;; parse_url (email_url_config lib) var v.
End Env.

(** value.startswith("$"): environ reads such a value as a reference. *)
Definition is_proxy (v : string) : bool :=
  match v with
  | String c _ => bool_decide (c = "$"%char)
  | EmptyString => false
  end.

(** An environment none of whose values is a reference: on it the
    lookups above return what environ returns. *)
Definition literal (environ : gmap string string) : bool :=
  forallb (fun entry => negb (is_proxy entry.2)) (map_to_list environ).

Definition BASE_DIR : string := "<repo>".

Definition path_join (a b : string) : string := a +:+ "/" +:+ b.

(** Path(p).parent, kept symbolic. *)
Definition parent_dir (p : string) : string := path_join p "..".

Definition INSTALLED_APPS_base : list string :=
  [ "django.contrib.admin";
    "django.contrib.auth";
    "polymorphic";
    "django.contrib.contenttypes";
    "django.contrib.sessions";
    "django.contrib.messages";
    "django.contrib.staticfiles";
    "django.contrib.humanize";
    "django_filters";
    "guardian";
    "oauth2_provider";
    "rest_framework";
    "django_select2";
    "djangoformsetjs";
    "compressor";
    "recurrence";
    "statici18n";
    "dynamic_preferences.users.apps.UserPreferencesConfig";
    "crispy_forms";
    "crispy_bootstrap5";
    "webpush";
    "ephios.modellogging" ].

Definition EPHIOS_CORE_MODULES : list string :=
  [ "ephios.core"; "ephios.extra"; "ephios.api" ].

Definition CORE_PLUGINS : list string :=
  [ "ephios.plugins.basesignup.apps.PluginApp";
    "ephios.plugins.pages.apps.PluginApp";
    "ephios.plugins.qualification_management.apps.PluginApp";
    "ephios.plugins.guests.apps.PluginApp";
    "ephios.plugins.eventautoqualification.apps.PluginApp";
    "ephios.plugins.simpleresource.apps.PluginApp" ].

(** PLUGINS = copy.copy(CORE_PLUGINS); for ep in entry_points: PLUGINS.append(ep.value) *)
Definition compute_PLUGINS (eps : list (string * string)) : list string :=
  fold_left (fun plugins ep => plugins ++ [ep.2]) eps CORE_PLUGINS.

Definition MIDDLEWARE_base : list string :=
  [ "django.middleware.security.SecurityMiddleware";
    "django.contrib.sessions.middleware.SessionMiddleware";
    "django.middleware.common.CommonMiddleware";
    "django.middleware.csrf.CsrfViewMiddleware";
    "django.contrib.auth.middleware.AuthenticationMiddleware";
    "django.contrib.messages.middleware.MessageMiddleware";
    "django.middleware.clickjacking.XFrameOptionsMiddleware";
    "csp.middleware.CSPMiddleware";
    "ephios.modellogging.middleware.LoggingRequestMiddleware" ].

Definition AUTHENTICATION_BACKENDS_base : list string :=
  [ "django.contrib.auth.backends.ModelBackend";
    "guardian.backends.ObjectPermissionBackend" ].

Record Icon : Type := {
  icon_src : string; icon_sizes : string; icon_type : string; icon_purpose : string }.

Definition PWA_APP_ICONS : list Icon :=
  [ {| icon_src := "/static/ephios/img/ephios-192x.png"; icon_sizes := "192x192";
       icon_type := "image/png"; icon_purpose := "maskable" |};
    {| icon_src := "/static/ephios/img/ephios-512x.png"; icon_sizes := "512x512";
       icon_type := "image/png"; icon_purpose := "maskable" |};
    {| icon_src := "/static/ephios/img/ephios-1024x.png"; icon_sizes := "1024x1024";
       icon_type := "image/png"; icon_purpose := "maskable" |};
    {| icon_src := "/static/ephios/img/ephios-symbol-red.svg"; icon_sizes := "any";
       icon_type := "image/svg+xml"; icon_purpose := "any" |} ].

(** The block under [if not DEBUG:]. A name the module does not bind is
    [None]: the loader leaves that setting to the framework. *)
Record Hardening : Type := {
  SESSION_COOKIE_SECURE : option bool;
  CSRF_COOKIE_SECURE : option bool;
  X_FRAME_OPTIONS : option string;
  SECURE_CONTENT_TYPE_NOSNIFF : option bool;
  SECURE_SSL_REDIRECT : option bool;
  SECURE_HSTS_SECONDS : option Z;
  SECURE_HSTS_INCLUDE_SUBDOMAINS : option bool;
  SECURE_REFERRER_POLICY : option string;
}.

Definition hardening (DEBUG : bool) : Hardening :=
  if negb DEBUG then
    {| SESSION_COOKIE_SECURE := Some true;
       CSRF_COOKIE_SECURE := Some true;
       X_FRAME_OPTIONS := Some "DENY";
       SECURE_CONTENT_TYPE_NOSNIFF := Some true;
       SECURE_SSL_REDIRECT := Some true;
       SECURE_HSTS_SECONDS := Some 3600%Z;
       SECURE_HSTS_INCLUDE_SUBDOMAINS := Some true;
       SECURE_REFERRER_POLICY := Some "same-origin" |}
  else
    {| SESSION_COOKIE_SECURE := None;
       CSRF_COOKIE_SECURE := None;
       X_FRAME_OPTIONS := None;
       SECURE_CONTENT_TYPE_NOSNIFF := None;
       SECURE_SSL_REDIRECT := None;
       SECURE_HSTS_SECONDS := None;
       SECURE_HSTS_INCLUDE_SUBDOMAINS := None;
       SECURE_REFERRER_POLICY := None |}.

(** The "file" handler of LOGGING. *)
Inductive FileHandler : Type :=
  | TimedRotatingFileHandler (filename : string) (backupCount : Z)
  | NullHandler.

Record Webpush : Type := {
  VAPID_PUBLIC_KEY : string;
  VAPID_PRIVATE_KEY : string; (* the path the key was read from *)
  VAPID_ADMIN_EMAIL : string }.

Record Oidc : Type := {
  OIDC_RP_CLIENT_ID : string;
  OIDC_RP_CLIENT_SECRET : string;
  OIDC_RP_SIGN_ALGO : string;
  OIDC_OP_AUTHORIZATION_ENDPOINT : string;
  OIDC_OP_TOKEN_ENDPOINT : string;
  OIDC_OP_USER_ENDPOINT : string;
  OIDC_OP_JWKS_ENDPOINT : string }.

(** The names the module binds once it has run to its end.
    vars().update(EMAIL_CONFIG) binds the keys of the dictionary that
    environ's email parser returns (its EMAIL_* names and OPTIONS); the
    dictionary is kept whole in [EMAIL_CONFIG]. *)
Record Settings : Type := {
  DATA_DIR : string;
  SECRET_KEY : string;
  DEBUG : bool;
  ALLOWED_HOSTS : list string;
  EPHIOS_VERSION : option string;
  hardened : Hardening;
  PLUGINS : list string;
  INSTALLED_APPS : list string;
  MIDDLEWARE : list string;
  DATABASES : Conf;
  CACHES : Conf;
  AUTHENTICATION_BACKENDS : list string;
  PASSWORD_RESET_TIMEOUT : Z;
  STATIC_URL : string;
  STATIC_ROOT : string;
  COMPRESS_ENABLED : bool;
  EMAIL_CONFIG : Conf;
  DEFAULT_FROM_EMAIL : string;
  SERVER_EMAIL : string;
  ADMINS : list (string * string);
  LOGGING_FILE : option string;
  LOGGING_file_handler : FileHandler;
  INTERNAL_IPS : option string;
  CRISPY_FAIL_SILENTLY : bool;
  WEBPUSH_SETTINGS : option Webpush;
  ENABLE_OIDC_CLIENT : bool;
  OIDC : option Oidc;
  created_dirs : list string; (* os.mkdir / Path.mkdir calls, in order *)
}.

(** INSTALLED_APPS when the module reaches the debug-toolbar block:
    the core modules, the base list, PLUGINS and dynamic_preferences. *)
Definition apps_before_toolbar (plugins : list string) : list string :=
  ((EPHIOS_CORE_MODULES ++ INSTALLED_APPS_base) ++ plugins) ++ ["dynamic_preferences"].

Section Load.
Variable lib : Environ.
Variable host : Host.
Variable environ : gmap string string.

(** django-debug-toolbar block: [INTERNAL_IPS = env.str("INTERNAL_IPS")]
    has no default and runs when DEBUG and DEBUG_TOOLBAR (default True). *)
Definition toolbar_active (debug : bool) : bool :=
  debug && env_bool_default lib environ "DEBUG_TOOLBAR" true.

Definition load_toolbar (debug : bool) (apps middleware : list string)
  : Result (list string * list string * option string) :=
  if toolbar_active debug then
    let apps := (apps ++ ["django_extensions"]) ++ ["debug_toolbar"] in
    let middleware := "debug_toolbar.middleware.DebugToolbarMiddleware" :: middleware in
    ips <- env_str environ "INTERNAL_IPS" ;;
    Ok (apps, middleware, Some ips)
  else Ok (apps, middleware, None).

(** logging block: the backup count is read only in the branch that
    builds the rotating handler. *)
Definition use_file_logging (debug : bool) (logging_file : option string) : bool :=
  negb debug && bool_decide (is_Some logging_file).

Definition load_file_handler (debug : bool) (logging_file : option string)
  : Result FileHandler :=
  if use_file_logging debug logging_file then
    n <- env_int_default lib environ "LOGGING_BACKUP_DAYS" 14 ;;
    Ok (TimedRotatingFileHandler (default "" logging_file) n)
  else Ok NullHandler.

(** os.mkdir(DATA_DIR) when the directory is not there. *)
Definition make_data_dir (data_dir : string) : Result (list string) :=
  if path_exists host data_dir then Ok []
  else if mkdir host data_dir then Ok [data_dir]
  else Raise (OSError data_dir).

(** Path(LOGGING_FILE).parent.mkdir(parents=True, exist_ok=True) under
    [if use_file_logging:]. *)
Definition make_log_dir (debug : bool) (logging_file : option string)
    (dirs : list string) : Result (list string) :=
  if use_file_logging debug logging_file then
    if makedirs host (parent_dir (default "" logging_file))
    then Ok (dirs ++ [parent_dir (default "" logging_file)])
    else Raise (OSError (parent_dir (default "" logging_file)))
  else Ok dirs.

(** django-webpush block; an empty path is falsy like None. *)
Definition load_webpush (admins : list (string * string)) : Result (option Webpush) :=
  match env_str_none environ "VAPID_PRIVATE_KEY_PATH" with
  | None => Ok None
  | Some path =>
      if bool_decide (path = "") then Ok None
      else
        match vapid_from_file host path with
        | None => Raise (ValueError "VAPID_PRIVATE_KEY_PATH")
        | Some pub =>
            match admins with
            | [] => Raise IndexError
            | admin :: _ =>
                Ok (Some {| VAPID_PUBLIC_KEY := pub;
                            VAPID_PRIVATE_KEY := path;
                            VAPID_ADMIN_EMAIL := admin.2 |})
            end
        end
  end.

Definition load_oidc (apps backends : list string)
  : Result (bool * list string * list string * option Oidc) :=
  if env_bool_default lib environ "ENABLE_OIDC_CLIENT" false then
    let apps := apps ++ ["mozilla_django_oidc"] in
    let backends := backends ++ ["mozilla_django_oidc.auth.OIDCAuthenticationBackend"] in
    client_id <- env_str environ "OIDC_RP_CLIENT_ID" ;;
    client_secret <- env_str environ "OIDC_RP_CLIENT_SECRET" ;;
    sign_algo <- env_str environ "OIDC_RP_SIGN_ALGO" ;;
    authorization <- env_str environ "OIDC_OP_AUTHORIZATION_ENDPOINT" ;;
    token <- env_str environ "OIDC_OP_TOKEN_ENDPOINT" ;;
    user <- env_str environ "OIDC_OP_USER_ENDPOINT" ;;
    jwks <- env_str environ "OIDC_OP_JWKS_ENDPOINT" ;;
    Ok (true, apps, backends,
        Some {| OIDC_RP_CLIENT_ID := client_id;
                OIDC_RP_CLIENT_SECRET := client_secret;
                OIDC_RP_SIGN_ALGO := sign_algo;
                OIDC_OP_AUTHORIZATION_ENDPOINT := authorization;
                OIDC_OP_TOKEN_ENDPOINT := token;
                OIDC_OP_USER_ENDPOINT := user;
                OIDC_OP_JWKS_ENDPOINT := jwks |})
  else Ok (false, apps, backends, None).

(** The module body, top to bottom. [environ] is the process
    environment after read_env has merged the env file into it. *)
Definition load : Result Settings :=
  let data_dir := env_str_default environ "DATA_DIR" (path_join BASE_DIR "data") in
  dirs <- make_data_dir data_dir ;;
  secret_key <- env_str environ "SECRET_KEY" ;;
  debug <- env_bool lib environ "DEBUG" ;;
  allowed_hosts <- env_list lib environ "ALLOWED_HOSTS" ;;
  let version := package_version host "ephios" in
  let plugins := compute_PLUGINS (entry_points host "ephios.plugins") in
  let apps := apps_before_toolbar plugins in
  databases <- env_db_url lib environ ;;
  caches <- env_cache_url lib environ "locmemcache://" ;;
  static_url <- env_str environ "STATIC_URL" ;;
  static_root <- env_str environ "STATIC_ROOT" ;;
  email_config <- env_email_url lib environ "EMAIL_URL" ;;
  default_from_email <- env_str environ "DEFAULT_FROM_EMAIL" ;;
  server_email <- env_str environ "SERVER_EMAIL" ;;
  admins_raw <- env_str environ "ADMINS" ;;
  let admins := getaddresses host admins_raw in
  let logging_file := env_str_none environ "LOGGING_FILE" in
  dirs <- make_log_dir debug logging_file dirs ;;
  file_handler <- load_file_handler debug logging_file ;;
  toolbar <- load_toolbar debug apps MIDDLEWARE_base ;;
  let '(apps, middleware, internal_ips) := toolbar in
  webpush <- load_webpush admins ;;
  oidc_block <- load_oidc apps AUTHENTICATION_BACKENDS_base ;;
  let '(oidc_enabled, apps, backends, oidc) := oidc_block in
  Ok {| DATA_DIR := data_dir;
        SECRET_KEY := secret_key;
        DEBUG := debug;
        ALLOWED_HOSTS := allowed_hosts;
        EPHIOS_VERSION := version;
        hardened := hardening debug;
        PLUGINS := plugins;
        INSTALLED_APPS := apps;
        MIDDLEWARE := middleware;
        DATABASES := databases;
        CACHES := caches;
        AUTHENTICATION_BACKENDS := backends;
        PASSWORD_RESET_TIMEOUT := 28 * 24 * 60 * 60;
        STATIC_URL := static_url;
        STATIC_ROOT := static_root;
        COMPRESS_ENABLED := negb debug;
        EMAIL_CONFIG := email_config;
        DEFAULT_FROM_EMAIL := default_from_email;
        SERVER_EMAIL := server_email;
        ADMINS := admins;
        LOGGING_FILE := logging_file;
        LOGGING_file_handler := file_handler;
        INTERNAL_IPS := internal_ips;
        CRISPY_FAIL_SILENTLY := negb debug;
        WEBPUSH_SETTINGS := webpush;
        ENABLE_OIDC_CLIENT := oidc_enabled;
        OIDC := oidc;
        created_dirs := dirs |}.

(** def GET_SITE_URL(): reads SITE_URL at call time and drops one
    trailing slash. *)
Definition strip_trailing_slash (s : string) : string :=
  match reverse (String.list_ascii_of_string s) with
  | c :: rest =>
      if bool_decide (c = "/"%char)
      then String.string_of_list_ascii (reverse rest)
      else s
  | [] => s
  end.

Definition GET_SITE_URL : Result string :=
  site_url <- env_str environ "SITE_URL" ;;
  Ok (strip_trailing_slash site_url).
End Load.

(** The variables the module reads without a default on every run. *)
Definition required_vars : list string :=
  [ "SECRET_KEY"; "DEBUG"; "ALLOWED_HOSTS"; "DATABASE_URL"; "STATIC_URL";
    "STATIC_ROOT"; "EMAIL_URL"; "DEFAULT_FROM_EMAIL"; "SERVER_EMAIL"; "ADMINS" ].

Definition oidc_vars : list string :=
  [ "OIDC_RP_CLIENT_ID"; "OIDC_RP_CLIENT_SECRET"; "OIDC_RP_SIGN_ALGO";
    "OIDC_OP_AUTHORIZATION_ENDPOINT"; "OIDC_OP_TOKEN_ENDPOINT";
    "OIDC_OP_USER_ENDPOINT"; "OIDC_OP_JWKS_ENDPOINT" ].

Definition present (environ : gmap string string) (var : string) : bool :=
  bool_decide (is_Some (environ !! var)).

Definition accepts {A : Type} (parser : string -> option A) (v : string) : bool :=
  bool_decide (is_Some (parser v)).

(** Every variable read without a default is present. *)
Definition required_present (environ : gmap string string) : bool :=
  forallb (present environ) required_vars.

(** Every value that goes through a parser is accepted by it. *)
Definition values_accepted (lib : Environ) (environ : gmap string string) : bool :=
  from_option (accepts (db_url_config lib)) false (environ !! "DATABASE_URL")
  && accepts (cache_url_config lib) (env_str_default environ "CACHE_URL" "locmemcache://")
  && from_option (accepts (email_url_config lib)) false (environ !! "EMAIL_URL")
  && from_option (accepts (cast_int lib)) true (environ !! "LOGGING_BACKUP_DAYS").

(** The data directory is there or can be made, and so can the
    directory of the log file when file logging is used. *)
Definition directories_creatable (lib : Environ) (host : Host)
    (environ : gmap string string) : bool :=
  let data_dir := env_str_default environ "DATA_DIR" (path_join BASE_DIR "data") in
  (path_exists host data_dir || mkdir host data_dir)
  && match environ !! "DEBUG", env_str_none environ "LOGGING_FILE" with
     | Some v, Some file => cast_bool lib v || makedirs host (parent_dir file)
     | _, _ => true
     end.

(** Push notifications are off (no key path), or the key file can be
    read and ADMINS yields at least one address. *)
Definition push_configured (host : Host) (environ : gmap string string) : bool :=
  match env_str_none environ "VAPID_PRIVATE_KEY_PATH" with
  | None => true
  | Some path =>
      accepts (vapid_from_file host) path
      && bool_decide (getaddresses host (default "" (environ !! "ADMINS")) <> [])
  end.

(** The OIDC client is off, or its seven variables are present. *)
Definition oidc_configured (lib : Environ) (environ : gmap string string) : bool :=
  negb (env_bool_default lib environ "ENABLE_OIDC_CLIENT" false)
  || forallb (present environ) oidc_vars.

(** An environment and host on which nothing but the debug-toolbar
    block can stop the run. INTERNAL_IPS is not looked at. *)
Definition configured (lib : Environ) (host : Host) (environ : gmap string string) : bool :=
  required_present environ
  && values_accepted lib environ
  && directories_creatable lib host environ
  && push_configured host environ
  && oidc_configured lib environ.

(** Whether the run reaches the debug-toolbar block. *)
Definition debug_toolbar_on (lib : Environ) (environ : gmap string string) : bool :=
  match environ !! "DEBUG" with
  | Some v => toolbar_active lib environ (cast_bool lib v)
  | None => false
  end.

End Settings.

(** ** ephios/core/context.py *)

Module Context.

Section Signals.
Variable Request : Type.
Variable NavItem : Type.
(** AbstractParticipation.States, an enumeration of ephios.core.models. *)
Variable ParticipationStates : Type.

(** A signal is its receivers in registration order; [send] calls each
    one and returns the (receiver, response) pairs in that order. *)
Definition Signal (A : Type) : Type := list (string * (Request -> A)).

Definition send {A : Type} (signal : Signal A) (request : Request) : list (string * A) :=
  map (fun receiver => (receiver.1, receiver.2 request)) signal.

(** for label, url in result.items(): footer[label] = url *)
Definition update_footer (footer result : gmap string string) : gmap string string :=
  map_fold (fun label url footer => <[label:=url]> footer) footer result.

(** for _, result in footer_link.send(None, request=request): ... *)
Definition collect_footer (responses : list (string * gmap string string))
  : gmap string string :=
  fold_left (fun footer response => update_footer footer response.2) responses ∅.

(** for _, result in nav_link.send(None, request=request): nav += result *)
Definition collect_nav (responses : list (string * list NavItem)) : list NavItem :=
  fold_left (fun nav response => nav ++ response.2) responses [].

Record PageContext : Type := {
  ctx_ParticipationStates : ParticipationStates;
  ctx_nav : list NavItem;
  ctx_footer : gmap string string;
  ctx_LANGUAGE_CODE : string;
  ctx_ephios_version : string;
  ctx_SITE_URL : string;
  ctx_PWA_APP_ICONS : list Settings.Icon;
}.

(** settings.EPHIOS_VERSION: the settings module binds the name only when
    the package metadata was found. *)
Definition settings_EPHIOS_VERSION (settings : Settings.Settings) : Result string :=
  match Settings.EPHIOS_VERSION settings with
  | Some v => Ok v
  | None => Raise (AttributeError "EPHIOS_VERSION")
  end.

Definition ephios_base_context
    (settings : Settings.Settings) (environ : gmap string string)
    (states : ParticipationStates) (get_language : string)
    (footer_link : Signal (gmap string string)) (nav_link : Signal (list NavItem))
    (request : Request) : Result PageContext :=
  let footer := collect_footer (send footer_link request) in
  let nav := collect_nav (send nav_link request) in
  version <- settings_EPHIOS_VERSION settings ;;
  site_url <- Settings.GET_SITE_URL environ ;;
  Ok {| ctx_ParticipationStates := states;
        ctx_nav := nav;
        ctx_footer := footer;
        ctx_LANGUAGE_CODE := get_language;
        ctx_ephios_version := version;
        ctx_SITE_URL := site_url;
        ctx_PWA_APP_ICONS := Settings.PWA_APP_ICONS |}.

End Signals.

Arguments collect_nav {NavItem} responses.
Arguments ctx_nav {NavItem ParticipationStates} p.
Arguments ctx_footer {NavItem ParticipationStates} p.
Arguments ctx_SITE_URL {NavItem ParticipationStates} p.
Arguments send {Request A} signal request.
Arguments ephios_base_context {Request NavItem ParticipationStates}.

(** The footer in the words of the specification: for a label, the URL
    contributed by the last responder that used the label. *)
Fixpoint last_contribution (label : string)
    (responses : list (string * gmap string string)) : option string :=
  match responses with
  | [] => None
  | response :: later =>
      match last_contribution label later with
      | Some url => Some url
      | None => response.2 !! label
      end
  end.

End Context.

(** ** ephios/user_management/views/consequences.py *)

Module Consequences.

(** Modelled from the spec: the members of Consequence.States
    (ephios/user_management/models.py is not part of the sources); the
    view itself names only FAILED. *)
Inductive States : Type := NEEDS_CONFIRMATION | CONFIRMED | DENIED | FAILED.

#[export] Instance States_eq_dec : EqDecision States.
Proof. solve_decision. Defined.

Record Consequence : Type := {
  pk : Z;
  state : States;
  fail_reason : string;
}.

Record UserProfile : Type := {
  user_pk : Z;
  is_authenticated : bool;
}.

Inductive Method : Type := GET | POST | OPTIONS | OTHER (name : string).

(** request.POST is a MultiValueDict: every key holds a list of values. *)
Record Request : Type := {
  method : Method;
  user : UserProfile;
  POST_data : gmap string (list string);
  is_ajax : bool;       (* request.is_ajax() *)
  kwargs_pk : Z;        (* the pk captured by the URL pattern *)
}.

(** MultiValueDict.__getitem__: a missing key raises, otherwise the last
    value of the list; an empty list yields [] (here [None]). *)
Definition POST_getitem (request : Request) (key : string) : Result (option string) :=
  match POST_data request !! key with
  | None => Raise (MultiValueDictKeyError key)
  | Some values => Ok (last values)
  end.

Inductive JsonValue : Type :=
  | JString (s : string)
  | JState (s : States).  (* the value of the TextChoices member *)

Inductive HttpResponse : Type :=
  | JsonResponse (body : gmap string JsonValue)
  | HttpResponseRedirect (to : string)
  | HttpResponseNotAllowed
  | HttpResponseOptions.

Inductive Level : Type := ERROR.

(** The methods the view calls on the consequence, in call order. *)
Inductive Call : Type :=
  | CallDeny (consequence : Z) (actor : Z)
  | CallConfirm (consequence : Z) (actor : Z).

Section View.
(** The database, the queryset [editable_consequences] and the model
    methods [deny] and [confirm] belong to ephios.user_management, whose
    modules consequences.py and models.py are not part of the sources:
    they are taken as they are. A method gets the object and the
    database and gives back both as it leaves them. *)
Variable DB : Type.
Variable editable_consequences : UserProfile -> DB -> list Consequence.
Variable deny : Consequence -> UserProfile -> DB -> Consequence * DB.
Variable confirm : Consequence -> UserProfile -> DB -> Consequence * DB.

Record World : Type := {
  db : DB;
  messages : list (Level * string);  (* django.contrib.messages storage *)
  calls : list Call;
}.

(** def get_queryset(self): return editable_consequences(self.request.user) *)
Definition get_queryset (request : Request) (w : World) : list Consequence :=
  editable_consequences (user request) (db w).

(** SingleObjectMixin.get_object: queryset.filter(pk=pk).get(), where
    DoesNotExist becomes Http404. *)
Definition get_object (request : Request) (w : World) : Result Consequence :=
  match filter (fun c => pk c = kwargs_pk request) (get_queryset request w) with
  | [] => Raise Http404
  | [c] => Ok c
  | _ :: _ :: _ => Raise MultipleObjectsReturned
  end.

Definition call_deny (c : Consequence) (u : UserProfile) (w : World) : Consequence * World :=
  let r := deny c u (db w) in
  (r.1, {| db := r.2; messages := messages w;
           calls := calls w ++ [CallDeny (pk c) (user_pk u)] |}).

Definition call_confirm (c : Consequence) (u : UserProfile) (w : World) : Consequence * World :=
  let r := confirm c u (db w) in
  (r.1, {| db := r.2; messages := messages w;
           calls := calls w ++ [CallConfirm (pk c) (user_pk u)] |}).

(** messages.error(request, text) *)
Definition messages_error (text : string) (w : World) : World :=
  {| db := db w; messages := messages w ++ [(ERROR, text)]; calls := calls w |}.

(** The end of post, from [if request.is_ajax():] on. *)
Definition respond (request : Request) (consequence : Consequence) (w : World)
  : Result HttpResponse * World :=
  if is_ajax request then
    (Ok (JsonResponse
           (<["state" := JState (state consequence)]>
              (<["fail_reason" := JString (fail_reason consequence)]> ∅))), w)
  else
    let w :=
      if bool_decide (state consequence = FAILED)
      then messages_error "There was an error performing that action." w
      else w in
    (Ok (HttpResponseRedirect "event_management:index"), w).

(** def post(self, request, *args, **kwargs) *)
Definition post (request : Request) (w : World) : Result HttpResponse * World :=
  match get_object request w with
  | Raise e => (Raise e, w)
  | Ok consequence =>
      match POST_getitem request "action" with
      | Raise e => (Raise e, w)
      | Ok action =>
          if bool_decide (action = Some "deny") then
            let r := call_deny consequence (user request) w in
            respond request r.1 r.2
          else if bool_decide (action = Some "confirm") then
            let r := call_confirm consequence (user request) w in
            respond request r.1 r.2
          else respond request consequence w
      end
  end.

(** LoginRequiredMixin.dispatch in front of View.dispatch: an anonymous
    user is sent to the login page; the view defines [post] only, and
    View itself brings [options]. *)
Definition dispatch (request : Request) (w : World) : Result HttpResponse * World :=
  if negb (is_authenticated (user request)) then
    (Ok (HttpResponseRedirect "login"), w)
  else
    match method request with
    | POST => post request w
    | OPTIONS => (Ok HttpResponseOptions, w)
    | _ => (Ok HttpResponseNotAllowed, w)
    end.

End View.

Arguments db {DB} w.
Arguments messages {DB} w.
Arguments calls {DB} w.
Arguments get_queryset {DB}.
Arguments get_object {DB}.
Arguments call_deny {DB}.
Arguments call_confirm {DB}.
Arguments messages_error {DB}.
Arguments respond {DB}.
Arguments post {DB}.
Arguments dispatch {DB}.

End Consequences.

(** ** Relational fields shared by the model modules *)

Module Orm.

(** The on_delete argument of a ForeignKey. *)
Inductive OnDelete : Type := CASCADE | PROTECT | DO_NOTHING.

(** What deleting a parent row does to the rows of one child table that
    point at it through a foreign key with the given policy: the pair of
    the rows that stay and the rows that are collected for deletion. *)
Definition collect {Row : Type} (policy : OnDelete) (points_at : Row -> bool)
    (rows : list Row) : Result (list Row * list Row) :=
  match policy with
  | CASCADE => Ok (List.filter (fun r => negb (points_at r)) rows, List.filter points_at rows)
  | PROTECT => if existsb points_at rows then Raise ProtectedError else Ok (rows, [])
  | DO_NOTHING => Ok (rows, [])
  end.

End Orm.

(** ** ephios/plugins/simpleresource/models.py *)

Module SimpleResource.
Import Orm.

Record ResourceCategory : Type := {
  category_id : Z;
  name : string;
}.

Record Resource : Type := {
  resource_id : Z;
  title : string;
  category : Z;            (* ForeignKey(ResourceCategory) *)
}.

Record ResourceAllocation : Type := {
  allocation_id : Z;
  shift : Z;               (* ForeignKey(Shift) *)
}.

(** A row of the table behind ResourceAllocation.resources. *)
Record AllocationResource : Type := {
  through_allocation : Z;
  through_resource : Z;
}.

Definition Resource_category_on_delete : OnDelete := CASCADE.
Definition ResourceAllocation_shift_on_delete : OnDelete := CASCADE.
(** Both keys of an automatic ManyToMany table cascade. *)
Definition through_on_delete : OnDelete := CASCADE.

(** def __str__ *)
Definition ResourceCategory_str (c : ResourceCategory) : string := name c.
Definition Resource_str (r : Resource) : string := title r.
Definition ResourceAllocation_str (shift_str : Z -> string) (a : ResourceAllocation) : string :=
  "Resource allocation for " +:+ shift_str (shift a).

Record DB : Type := {
  shifts : list Z;
  categories : list ResourceCategory;
  resources : list Resource;
  allocations : list ResourceAllocation;
  allocation_resources : list AllocationResource;
}.

Definition mem (x : Z) (l : list Z) : bool := existsb (Z.eqb x) l.

(** ResourceCategory.delete() for the row with primary key [c]. *)
Definition delete_category (c : Z) (d : DB) : Result DB :=
  rs <- collect Resource_category_on_delete (fun r => Z.eqb (category r) c) (resources d) ;;
  let dead := map resource_id rs.2 in
  ts <- collect through_on_delete (fun t => mem (through_resource t) dead)
          (allocation_resources d) ;;
  Ok {| shifts := shifts d;
        categories := List.filter (fun k => negb (Z.eqb (category_id k) c)) (categories d);
        resources := rs.1;
        allocations := allocations d;
        allocation_resources := ts.1 |}.

(** Shift.delete() for the row with primary key [s], as far as the
    tables of this plugin go. *)
Definition delete_shift (s : Z) (d : DB) : Result DB :=
  als <- collect ResourceAllocation_shift_on_delete (fun a => Z.eqb (shift a) s)
           (allocations d) ;;
  let dead := map allocation_id als.2 in
  ts <- collect through_on_delete (fun t => mem (through_allocation t) dead)
          (allocation_resources d) ;;
  Ok {| shifts := List.filter (fun k => negb (Z.eqb k s)) (shifts d);
        categories := categories d;
        resources := resources d;
        allocations := als.1;
        allocation_resources := ts.1 |}.

(** allocation.resources.all() *)
Definition allocation_resources_all (d : DB) (a : ResourceAllocation) : list Resource :=
  List.filter
    (fun r => existsb (fun t => Z.eqb (through_allocation t) (allocation_id a)
                                && Z.eqb (through_resource t) (resource_id r))
                      (allocation_resources d))
    (resources d).

(** The Resources a category owns and the allocation records of a shift. *)
Definition owned (c : Z) (d : DB) : list Resource :=
  List.filter (fun r => Z.eqb (category r) c) (resources d).

Definition allocated (s : Z) (d : DB) : list ResourceAllocation :=
  List.filter (fun a => Z.eqb (shift a) s) (allocations d).

(** Every foreign key of the five tables points at a stored row. *)
Definition referential_integrity (d : DB) : bool :=
  forallb (fun r => existsb (fun k => Z.eqb (category_id k) (category r)) (categories d))
    (resources d)
  && forallb (fun a => mem (shift a) (shifts d)) (allocations d)
  && forallb
       (fun t =>
          existsb (fun a => Z.eqb (allocation_id a) (through_allocation t)) (allocations d)
          && existsb (fun r => Z.eqb (resource_id r) (through_resource t)) (resources d))
       (allocation_resources d).

End SimpleResource.

(** ** ephios/user_management/migrations/0004_auto_20201014_1648.py *)

Module Migration0004.
Import Orm.

Inductive Field : Type :=
  | ManyToManyField (blank : bool) (related_name : option string) (to : string)
  | ForeignKey (on_delete : OnDelete) (related_name : option string) (to : string)
               (verbose_name : string)
  | OtherField.

(** The project state a migration works on: (model, field name) to field. *)
Abbreviation ProjectState := (gmap (string * string) Field).

Record AlterField : Type := {
  model_name : string;
  field_name : string;
  field : Field;
}.

Definition AUTH_USER_MODEL : string := "core.UserProfile".

Definition included_qualifications_field : Field :=
  ManyToManyField true (Some "included_by") "user_management.Qualification".

Definition operations : list AlterField :=
  [ {| model_name := "qualification";
       field_name := "included_qualifications";
       field := included_qualifications_field |};
    {| model_name := "qualificationgrant";
       field_name := "user";
       field := ForeignKey CASCADE (Some "qualification_grants") AUTH_USER_MODEL
                  "user profile" |} ].

(** state.models[app_label, model_name]: a model is in the project state
    when the state holds a field of it. *)
Definition has_model (s : ProjectState) (model : string) : bool :=
  existsb (fun entry => bool_decide (entry.1.1 = model)) (map_to_list s).

(** AlterField.state_forwards: looks the model up, which raises KeyError
    for a model the state does not have, and assigns the field under its
    name, whether or not the model had a field of that name. *)
Definition state_forwards (op : AlterField) (s : ProjectState) : Result ProjectState :=
  if has_model s (model_name op)
  then Ok (<[(model_name op, field_name op) := field op]> s)
  else Raise (KeyError (model_name op)).

Fixpoint apply (ops : list AlterField) (s : ProjectState) : Result ProjectState :=
  match ops with
  | [] => Ok s
  | op :: ops => s' <- state_forwards op s ;; apply ops s'
  end.

(** A ManyToManyField is symmetrical by default only when it is declared
    with to="self". *)
Definition symmetrical (f : Field) : bool :=
  match f with
  | ManyToManyField _ _ to => bool_decide (to = "self")
  | _ => false
  end.

(** The name of the accessor on the target model: none for a symmetrical
    relation, else related_name, else <model>_set. *)
Definition reverse_accessor (model : string) (f : Field) : option string :=
  match f with
  | ManyToManyField _ related_name _ =>
      if symmetrical f then None else Some (default (model +:+ "_set") related_name)
  | ForeignKey _ related_name _ _ => Some (default (model +:+ "_set") related_name)
  | OtherField => None
  end.

(** Qualification rows and the rows (from_qualification, to_qualification)
    of the table behind included_qualifications. *)
Record QualificationDB : Type := {
  qualifications : list Z;
  through : list (Z * Z);
}.

Definition has_row (d : QualificationDB) (from to : Z) : bool :=
  existsb (fun row => Z.eqb row.1 from && Z.eqb row.2 to) (through d).

(** obj.included_qualifications.add(x) *)
Definition add (f : Field) (obj x : Z) (d : QualificationDB) : QualificationDB :=
  let rows := if has_row d obj x then through d else through d ++ [(obj, x)] in
  let d' := {| qualifications := qualifications d; through := rows |} in
  if symmetrical f then
    {| qualifications := qualifications d;
       through := if has_row d' x obj then rows else rows ++ [(x, obj)] |}
  else d'.

(** The forward manager obj.<field name>.all() *)
Definition forward_all (d : QualificationDB) (obj : Z) : list Z :=
  List.filter (fun q => has_row d obj q) (qualifications d).

(** The reverse manager obj.<related name>.all() *)
Definition reverse_all (d : QualificationDB) (obj : Z) : list Z :=
  List.filter (fun q => has_row d q obj) (qualifications d).

(** getattr(obj, attr).all() on a Qualification, for the relation stored
    in the project state under qualification.included_qualifications. *)
Definition related_all (s : ProjectState) (d : QualificationDB) (obj : Z) (attr : string)
  : Result (list Z) :=
  match s !! ("qualification", "included_qualifications") with
  | None => Raise (AttributeError attr)
  | Some f =>
      if bool_decide (attr = "included_qualifications") then Ok (forward_all d obj)
      else if bool_decide (reverse_accessor "qualification" f = Some attr)
      then Ok (reverse_all d obj)
      else Raise (AttributeError attr)
  end.

(** QualificationGrant rows and the users they point at. *)
Record Grant : Type := {
  grant_id : Z;
  grant_user : Z;            (* ForeignKey(settings.AUTH_USER_MODEL) *)
  grant_qualification : Z;
}.

Record GrantDB : Type := {
  users : list Z;
  grants : list Grant;
}.

(** Deleting the user with primary key [u], as far as the grants go,
    under the field the project state holds for qualificationgrant.user. *)
Definition delete_user (s : ProjectState) (u : Z) (d : GrantDB) : Result GrantDB :=
  match s !! ("qualificationgrant", "user") with
  | Some (ForeignKey on_delete _ _ _) =>
      gs <- collect on_delete (fun g => Z.eqb (grant_user g) u) (grants d) ;;
      Ok {| users := List.filter (fun k => negb (Z.eqb k u)) (users d);
            grants := gs.1 |}
  | _ => Raise (AttributeError "user")
  end.

(** getattr(user, attr).all() for the reverse side of
    qualificationgrant.user. *)
Definition user_related_all (s : ProjectState) (d : GrantDB) (u : Z) (attr : string)
  : Result (list Grant) :=
  match s !! ("qualificationgrant", "user") with
  | Some f =>
      if bool_decide (reverse_accessor "qualificationgrant" f = Some attr)
      then Ok (List.filter (fun g => Z.eqb (grant_user g) u) (grants d))
      else Raise (AttributeError attr)
  | None => Raise (AttributeError attr)
  end.

End Migration0004.

(** ** ephios/core/apps.py *)

Module Apps.

(** ", ".join(parts) *)
Fixpoint join (sep : string) (parts : list string) : string :=
  match parts with
  | [] => ""
  | [p] => p
  | p :: rest => p +:+ sep +:+ join sep rest
  end.

(** What CoreAppConfig.ready leaves behind: the registrations made with
    preference_models and the lines given to logger.info. *)
Record AppState : Type := {
  preference_models : list (string * string);  (* (model, registry) *)
  info_log : list string;
}.

(** def ready(self) *)
Definition ready (settings : Settings.Settings) (st : AppState) : AppState :=
  {| preference_models :=
       preference_models st ++ [("EventTypePreference", "event_type_preference_registry")];
     info_log :=
       info_log st ++ ["Installed plugins: " +:+ join ", " (Settings.PLUGINS settings)] |}.

End Apps.

(** ** Concrete hosts, environments and databases used to run the model *)

Module Scenario.
Import Settings.

(** A lower-case instance of environ's boolean cast. *)
Definition demo_cast_bool (v : string) : bool :=
  bool_decide (v ∈ ["true"; "on"; "ok"; "y"; "yes"; "1"]).

Definition demo_url_config (v : string) : option Conf :=
  if bool_decide (v = "") then None else Some {[ "NAME" := v ]}.

Definition demo_lib : Environ :=
  {| cast_bool := demo_cast_bool;
     cast_int := fun v => if bool_decide (v = "14") then Some 14%Z else None;
     cast_list := fun v => [v];
     db_url_config := demo_url_config;
     cache_url_config := demo_url_config;
     email_url_config := demo_url_config |}.

Definition demo_host : Host :=
  {| entry_points := fun group =>
       if bool_decide (group = "ephios.plugins")
       then [("ephios_demo", "ephios_demo.apps.PluginApp")] else [];
     package_version := fun _ => Some "0.0.0";
     path_exists := fun _ => true;
     mkdir := fun _ => true;
     makedirs := fun _ => true;
     vapid_from_file := fun _ => None;
     getaddresses := fun v => [("", v)] |}.

Definition base_env : gmap string string :=
  list_to_map
    [ ("SECRET_KEY", "s3cr3t");
      ("ALLOWED_HOSTS", "*");
      ("DATABASE_URL", "sqlite:///data/db.sqlite3");
      ("STATIC_URL", "/static/");
      ("STATIC_ROOT", "data/static/");
      ("EMAIL_URL", "dummymail://");
      ("DEFAULT_FROM_EMAIL", "webmaster@localhost");
      ("SERVER_EMAIL", "root@localhost");
      ("ADMINS", "Root User <root@localhost>") ].

Definition production_env : gmap string string := <["DEBUG" := "false"]> base_env.
Definition debug_env : gmap string string := <["DEBUG" := "true"]> base_env.

Definition site_env : gmap string string :=
  <["SITE_URL" := "https://ephios.example/"]> production_env.

(** Two plugins answer both broadcasts; both use the label "Imprint". *)
Definition demo_footer_link : Context.Signal unit (gmap string string) :=
  [ ("pages", fun _ => {[ "Imprint" := "/pages/imprint"; "Privacy" := "/pages/privacy" ]});
    ("guests", fun _ => {[ "Imprint" := "/guests/imprint" ]}) ].

Definition demo_nav_link : Context.Signal unit (list string) :=
  [ ("pages", fun _ => ["Pages"; "Help"]);
    ("guests", fun _ => ["Guests"]) ].

(** A database for the consequence view: the Consequence rows, who may
    decide which consequence, and the consequences whose effect raises
    (with the reason it gives). *)
Record DemoDB : Type := {
  rows : gmap Z Consequences.Consequence;
  approvers : list (Z * Z);        (* (user pk, consequence pk) *)
  failing : list (Z * string);     (* (consequence pk, reason) *)
}.

Definition save (c : Consequences.Consequence) (d : DemoDB) : DemoDB :=
  {| rows := <[Consequences.pk c := c]> (rows d);
     approvers := approvers d;
     failing := failing d |}.

Definition demo_editable_consequences (u : Consequences.UserProfile) (d : DemoDB)
  : list Consequences.Consequence :=
  List.filter
    (fun c => bool_decide ((Consequences.user_pk u, Consequences.pk c) ∈ approvers d))
    (map snd (map_to_list (rows d))).

(** Modelled from the spec: Consequence.deny, which models.py of
    ephios.user_management defines ("transitions a pending consequence to
    DENIED"). *)
Definition demo_deny (c : Consequences.Consequence) (u : Consequences.UserProfile)
    (d : DemoDB) : Consequences.Consequence * DemoDB :=
  let c' := {| Consequences.pk := Consequences.pk c;
               Consequences.state := Consequences.DENIED;
               Consequences.fail_reason := Consequences.fail_reason c |} in
  (c', save c' d).

(** Modelled from the spec: Consequence.confirm, which models.py of
    ephios.user_management defines ("on success moves to confirmed, on
    failure moves to FAILED and sets fail_reason"). *)
Definition demo_confirm (c : Consequences.Consequence) (u : Consequences.UserProfile)
    (d : DemoDB) : Consequences.Consequence * DemoDB :=
  let c' :=
    match list_find (fun f => f.1 = Consequences.pk c) (failing d) with
    | Some (_, (_, reason)) =>
        {| Consequences.pk := Consequences.pk c;
           Consequences.state := Consequences.FAILED;
           Consequences.fail_reason := reason |}
    | None =>
        {| Consequences.pk := Consequences.pk c;
           Consequences.state := Consequences.CONFIRMED;
           Consequences.fail_reason := "" |}
    end in
  (c', save c' d).

Definition pending (k : Z) : Consequences.Consequence :=
  {| Consequences.pk := k;
     Consequences.state := Consequences.NEEDS_CONFIRMATION;
     Consequences.fail_reason := "" |}.

(** User 1 may decide consequences 7 and 8, user 2 none; the effect of
    consequence 8 raises. *)
Definition demo_db : DemoDB :=
  {| rows := list_to_map [ (7, pending 7); (8, pending 8); (9, pending 9) ]%Z;
     approvers := [ (1, 7); (1, 8) ]%Z;
     failing := [ (8, "Qualification does not exist.") ]%Z |}.

Definition demo_world : Consequences.World DemoDB :=
  {| Consequences.db := demo_db; Consequences.messages := []; Consequences.calls := [] |}.

Definition demo_user (k : Z) : Consequences.UserProfile :=
  {| Consequences.user_pk := k; Consequences.is_authenticated := true |}.

Definition demo_request (u target : Z) (form : list (string * list string)) (ajax : bool)
  : Consequences.Request :=
  {| Consequences.method := Consequences.POST;
     Consequences.user := demo_user u;
     Consequences.POST_data := list_to_map form;
     Consequences.is_ajax := ajax;
     Consequences.kwargs_pk := target |}.

Definition demo_dispatch :=
  Consequences.dispatch demo_editable_consequences demo_deny demo_confirm.

(** A project state before migration 0004 and three qualifications, of
    which 2 includes 1. *)
Definition demo_state : Migration0004.ProjectState :=
  list_to_map
    [ (("qualification", "included_qualifications"),
       Migration0004.ManyToManyField false None "user_management.Qualification");
      (("qualificationgrant", "user"),
       Migration0004.ForeignKey Orm.PROTECT None Migration0004.AUTH_USER_MODEL "user") ].

Definition demo_qualifications : Migration0004.QualificationDB :=
  {| Migration0004.qualifications := [1; 2; 3]%Z;
     Migration0004.through := [ (2, 1) ]%Z |}.

(** Two shifts with one allocation record each; the record of shift 1
    refers to both Resources of the only category. *)
Definition demo_resources : SimpleResource.DB :=
  {| SimpleResource.shifts := [1; 2]%Z;
     SimpleResource.categories :=
       [ {| SimpleResource.category_id := 1; SimpleResource.name := "Vehicles" |} ];
     SimpleResource.resources :=
       [ {| SimpleResource.resource_id := 10; SimpleResource.title := "Van";
            SimpleResource.category := 1 |};
         {| SimpleResource.resource_id := 11; SimpleResource.title := "Bus";
            SimpleResource.category := 1 |} ];
     SimpleResource.allocations :=
       [ {| SimpleResource.allocation_id := 5; SimpleResource.shift := 1 |};
         {| SimpleResource.allocation_id := 6; SimpleResource.shift := 2 |} ];
     SimpleResource.allocation_resources :=
       [ {| SimpleResource.through_allocation := 5; SimpleResource.through_resource := 10 |};
         {| SimpleResource.through_allocation := 5; SimpleResource.through_resource := 11 |};
         {| SimpleResource.through_allocation := 6; SimpleResource.through_resource := 10 |} ] |}.

(** A production environment that also sets the two debug-toolbar
    variables, and one that asks for file logging. *)
Definition production_toolbar_env : gmap string string :=
  <["DEBUG_TOOLBAR" := "true"]> (<["INTERNAL_IPS" := "127.0.0.1"]> production_env).

Definition file_logging_env : gmap string string :=
  <["LOGGING_FILE" := "/var/log/ephios/ephios.log"]> production_env.

(** A host on which the VAPID key file can be read. *)
Definition vapid_host : Settings.Host :=
  {| Settings.entry_points := Settings.entry_points demo_host;
     Settings.package_version := Settings.package_version demo_host;
     Settings.path_exists := Settings.path_exists demo_host;
     Settings.mkdir := Settings.mkdir demo_host;
     Settings.makedirs := Settings.makedirs demo_host;
     Settings.vapid_from_file := fun path => Some ("public key of " +:+ path);
     Settings.getaddresses := Settings.getaddresses demo_host |}.

Definition vapid_env : gmap string string :=
  <["VAPID_PRIVATE_KEY_PATH" := "/etc/ephios/vapid.pem"]> production_env.

Definition oidc_env : gmap string string :=
  <["ENABLE_OIDC_CLIENT" := "true"]>
    (<["OIDC_RP_CLIENT_ID" := "ephios"]>
    (<["OIDC_RP_CLIENT_SECRET" := "secret"]>
    (<["OIDC_RP_SIGN_ALGO" := "RS256"]>
    (<["OIDC_OP_AUTHORIZATION_ENDPOINT" := "https://idp.example/auth"]>
    (<["OIDC_OP_TOKEN_ENDPOINT" := "https://idp.example/token"]>
    (<["OIDC_OP_USER_ENDPOINT" := "https://idp.example/userinfo"]>
    (<["OIDC_OP_JWKS_ENDPOINT" := "https://idp.example/jwks"]> production_env))))))).

(** Two categories; the allocation record of shift 1 refers to a
    Resource of each. *)
Definition two_category_resources : SimpleResource.DB :=
  {| SimpleResource.shifts := [1]%Z;
     SimpleResource.categories :=
       [ {| SimpleResource.category_id := 1; SimpleResource.name := "Vehicles" |};
         {| SimpleResource.category_id := 2; SimpleResource.name := "Radios" |} ];
     SimpleResource.resources :=
       [ {| SimpleResource.resource_id := 10; SimpleResource.title := "Van";
            SimpleResource.category := 1 |};
         {| SimpleResource.resource_id := 11; SimpleResource.title := "Handset";
            SimpleResource.category := 2 |} ];
     SimpleResource.allocations :=
       [ {| SimpleResource.allocation_id := 5; SimpleResource.shift := 1 |} ];
     SimpleResource.allocation_resources :=
       [ {| SimpleResource.through_allocation := 5; SimpleResource.through_resource := 10 |};
         {| SimpleResource.through_allocation := 5; SimpleResource.through_resource := 11 |} ] |}.

(** Two users; user 1 holds two grants, user 2 one. *)
Definition demo_grants : Migration0004.GrantDB :=
  {| Migration0004.users := [1; 2]%Z;
     Migration0004.grants :=
       [ {| Migration0004.grant_id := 1; Migration0004.grant_user := 1;
            Migration0004.grant_qualification := 1 |};
         {| Migration0004.grant_id := 2; Migration0004.grant_user := 2;
            Migration0004.grant_qualification := 1 |};
         {| Migration0004.grant_id := 3; Migration0004.grant_user := 1;
            Migration0004.grant_qualification := 3 |} ] |}.

End Scenario.

(** * Properties *)

Lemma bind_inv {A B : Type} (r : Result A) (k : A -> Result B) (b : B) :
  bind r k = Ok b -> exists a, r = Ok a /\ k a = Ok b.
Proof. destruct r as [a|e]; simpl; [eauto | discriminate]. Qed.

Module SettingsFacts.
Import Settings.

Lemma compute_PLUGINS_fold (eps : list (string * string)) (core : list string) :
  fold_left (fun plugins ep => plugins ++ [ep.2]) eps core = core ++ map snd eps.
Proof.
  revert core. induction eps as [|ep eps IH]; intros core; simpl.
  - by rewrite app_nil_r.
  - rewrite IH. by rewrite <- app_assoc.
Qed.

(** C5. Whatever entry points are discovered, the plugin list is the six
    core plugins in their declared order followed by the discovered
    plugins in discovery order: its first six entries are the core
    plugins, each at its own position. *)
Theorem PLUGINS_core_then_discovered (eps : list (string * string)) :
  compute_PLUGINS eps = CORE_PLUGINS ++ map snd eps
  /\ length CORE_PLUGINS = 6
  /\ take 6 (compute_PLUGINS eps) = CORE_PLUGINS
  /\ drop 6 (compute_PLUGINS eps) = map snd eps
  /\ (forall i p, CORE_PLUGINS !! i = Some p -> compute_PLUGINS eps !! i = Some p).
Proof.
  assert (E : compute_PLUGINS eps = CORE_PLUGINS ++ map snd eps)
    by apply compute_PLUGINS_fold.
  rewrite E. repeat split.
  - intros i p Hi. by apply lookup_app_l_Some.
Qed.

Lemma load_inv (lib : Environ) (host : Host) (environ : gmap string string)
    (cfg : Settings) :
  load lib host environ = Ok cfg ->
  exists v, environ !! "DEBUG" = Some v
    /\ DEBUG cfg = cast_bool lib v
    /\ hardened cfg = hardening (DEBUG cfg)
    /\ PLUGINS cfg = compute_PLUGINS (entry_points host "ephios.plugins")
    /\ (toolbar_active lib environ (DEBUG cfg) = true ->
        is_Some (environ !! "INTERNAL_IPS")).
Proof.
  unfold load. intros H.
  apply bind_inv in H as (dirs & _ & H).
  apply bind_inv in H as (secret_key & _ & H).
  apply bind_inv in H as (debug & Hdebug & H).
  unfold env_bool in Hdebug. apply bind_inv in Hdebug as (v & Hv & Hdebug).
  injection Hdebug as <-.
  unfold env_str in Hv. destruct (environ !! "DEBUG") as [v'|] eqn:Ev; [|discriminate].
  injection Hv as ->.
  apply bind_inv in H as (allowed_hosts & _ & H).
  apply bind_inv in H as (databases & _ & H).
  apply bind_inv in H as (caches & _ & H).
  apply bind_inv in H as (static_url & _ & H).
  apply bind_inv in H as (static_root & _ & H).
  apply bind_inv in H as (email_config & _ & H).
  apply bind_inv in H as (default_from_email & _ & H).
  apply bind_inv in H as (server_email & _ & H).
  apply bind_inv in H as (admins_raw & _ & H).
  apply bind_inv in H as (log_dirs & _ & H).
  apply bind_inv in H as (file_handler & _ & H).
  apply bind_inv in H as ([[apps mw] ips] & Htoolbar & H).
  apply bind_inv in H as (webpush & _ & H).
  apply bind_inv in H as ([[[en apps'] backends] oidc] & _ & H).
  injection H as <-. simpl.
  exists v. repeat split; try done.
  intros Hactive. unfold load_toolbar in Htoolbar. rewrite Hactive in Htoolbar.
  apply bind_inv in Htoolbar as (ip & Hip & _).
  unfold env_str in Hip. destruct (environ !! "INTERNAL_IPS"); [eauto | discriminate].
Qed.

Lemma load_PLUGINS (lib : Environ) (host : Host) (environ : gmap string string)
    (cfg : Settings) :
  load lib host environ = Ok cfg ->
  PLUGINS cfg = CORE_PLUGINS ++ map snd (entry_points host "ephios.plugins").
Proof.
  intros H. destruct (load_inv _ _ _ _ H) as (_ & _ & _ & _ & -> & _).
  apply compute_PLUGINS_fold.
Qed.

(** C4. When the module loads with DEBUG read as false it binds
    SESSION_COOKIE_SECURE, CSRF_COOKIE_SECURE and SECURE_SSL_REDIRECT to
    True, SECURE_HSTS_SECONDS to 3600 and SECURE_HSTS_INCLUDE_SUBDOMAINS to
    True; when DEBUG is read as true it binds none of these names. *)
Theorem hardened_defaults (lib : Environ) (host : Host) (environ : gmap string string)
    (cfg : Settings) :
  load lib host environ = Ok cfg ->
  exists v, environ !! "DEBUG" = Some v
    /\ DEBUG cfg = cast_bool lib v
    /\ (DEBUG cfg = false ->
        SESSION_COOKIE_SECURE (hardened cfg) = Some true
        /\ CSRF_COOKIE_SECURE (hardened cfg) = Some true
        /\ SECURE_SSL_REDIRECT (hardened cfg) = Some true
        /\ SECURE_HSTS_SECONDS (hardened cfg) = Some 3600%Z
        /\ SECURE_HSTS_INCLUDE_SUBDOMAINS (hardened cfg) = Some true)
    /\ (DEBUG cfg = true ->
        SESSION_COOKIE_SECURE (hardened cfg) = None
        /\ CSRF_COOKIE_SECURE (hardened cfg) = None
        /\ SECURE_SSL_REDIRECT (hardened cfg) = None
        /\ SECURE_HSTS_SECONDS (hardened cfg) = None
        /\ SECURE_HSTS_INCLUDE_SUBDOMAINS (hardened cfg) = None).
Proof.
  intros H. destruct (load_inv _ _ _ _ H) as (v & Hv & Hd & Hh & _).
  exists v. split; [done|]. split; [done|].
  rewrite Hh. split; intros ->; simpl; done.
Qed.

Lemma hardened_defaults_witness :
  exists cfg, load Scenario.demo_lib Scenario.demo_host Scenario.production_env = Ok cfg
    /\ DEBUG cfg = false
    /\ SECURE_HSTS_SECONDS (hardened cfg) = Some 3600%Z.
Proof.
  destruct (load Scenario.demo_lib Scenario.demo_host Scenario.production_env)
    as [cfg|e] eqn:E; [|vm_compute in E; discriminate].
  exists cfg. split; [reflexivity|].
  destruct (hardened_defaults _ _ _ _ E) as (v & Hv & Hd & Hfalse & _).
  assert (Hdebug : DEBUG cfg = false).
  { rewrite Hd. vm_compute in Hv. injection Hv as <-. reflexivity. }
  split; [exact Hdebug|]. apply (Hfalse Hdebug).
Defined.

Section Blocks.
Variable lib : Environ.
Variable host : Host.
Variable environ : gmap string string.

Lemma env_str_present (var v : string) :
  environ !! var = Some v -> env_str environ var = Ok v.
Proof. unfold env_str. by intros ->. Qed.

Lemma present_lookup (var : string) :
  present environ var = true -> exists v, environ !! var = Some v.
Proof. unfold present. rewrite bool_decide_eq_true. intros [v Hv]. eauto. Qed.

Lemma accepts_parse_url (parser : string -> option Conf) (var v : string) :
  accepts parser v = true -> succeeds (parse_url parser var v).
Proof.
  unfold accepts, parse_url. rewrite bool_decide_eq_true. intros [c ->].
  by exists c.
Qed.

Lemma load_file_handler_succeeds (debug : bool) (logging_file : option string) :
  from_option (accepts (cast_int lib)) true (environ !! "LOGGING_BACKUP_DAYS") = true ->
  succeeds (load_file_handler lib environ debug logging_file).
Proof.
  intros H. unfold load_file_handler, env_int_default.
  destruct (use_file_logging debug logging_file); [|by eexists].
  destruct (environ !! "LOGGING_BACKUP_DAYS") as [v|]; simpl in *; [|by eexists].
  unfold accepts in H. rewrite bool_decide_eq_true in H. destruct H as [n ->].
  by eexists.
Qed.

Lemma load_webpush_succeeds (admins_raw : string) :
  environ !! "ADMINS" = Some admins_raw ->
  push_configured host environ = true ->
  succeeds (load_webpush host environ (getaddresses host admins_raw)).
Proof.
  intros Hadmins H. unfold load_webpush. unfold push_configured in H.
  rewrite Hadmins in H. simpl in H.
  destruct (env_str_none environ "VAPID_PRIVATE_KEY_PATH") as [path|]; [|by eexists].
  destruct (bool_decide (path = "")); [by eexists|].
  apply andb_true_iff in H as [Hkey Hne].
  unfold accepts in Hkey. rewrite bool_decide_eq_true in Hkey. destruct Hkey as [pub ->].
  rewrite bool_decide_eq_true in Hne.
  destruct (getaddresses host admins_raw); [done | by eexists].
Qed.

Lemma make_data_dir_succeeds (data_dir : string) :
  path_exists host data_dir || mkdir host data_dir = true ->
  succeeds (make_data_dir host data_dir).
Proof.
  unfold make_data_dir. intros H.
  destruct (path_exists host data_dir); [by eexists|]. simpl in H. rewrite H.
  by eexists.
Qed.

Lemma make_log_dir_succeeds (v : string) (dirs : list string) :
  match env_str_none environ "LOGGING_FILE" with
  | Some file => cast_bool lib v || makedirs host (parent_dir file)
  | None => true
  end = true ->
  succeeds (make_log_dir host (cast_bool lib v) (env_str_none environ "LOGGING_FILE") dirs).
Proof.
  unfold make_log_dir, use_file_logging. intros H.
  destruct (env_str_none environ "LOGGING_FILE") as [file|]; simpl.
  - destruct (cast_bool lib v); simpl in *; [by eexists|].
    rewrite H. by eexists.
  - rewrite andb_false_r. by eexists.
Qed.

Lemma load_oidc_succeeds (apps backends : list string) :
  negb (env_bool_default lib environ "ENABLE_OIDC_CLIENT" false)
  || forallb (present environ) oidc_vars = true ->
  succeeds (load_oidc lib environ apps backends).
Proof.
  intros H. unfold load_oidc.
  destruct (env_bool_default lib environ "ENABLE_OIDC_CLIENT" false); [|by eexists].
  simpl in H. rewrite !andb_true_iff in H.
  destruct H as (H1 & H2 & H3 & H4 & H5 & H6 & H7 & _).
  apply present_lookup in H1 as [v1 H1], H2 as [v2 H2], H3 as [v3 H3], H4 as [v4 H4],
    H5 as [v5 H5], H6 as [v6 H6], H7 as [v7 H7].
  rewrite (env_str_present _ _ H1), (env_str_present _ _ H2), (env_str_present _ _ H3),
    (env_str_present _ _ H4), (env_str_present _ _ H5), (env_str_present _ _ H6),
    (env_str_present _ _ H7).
  simpl. by eexists.
Qed.

Lemma load_toolbar_succeeds (debug : bool) (apps middleware : list string) :
  toolbar_active lib environ debug = false \/ is_Some (environ !! "INTERNAL_IPS") ->
  succeeds (load_toolbar lib environ debug apps middleware).
Proof.
  unfold load_toolbar. intros [-> | [ip Hip]]; [by eexists|].
  destruct (toolbar_active lib environ debug); [|by eexists].
  rewrite (env_str_present _ _ Hip). by eexists.
Qed.

Lemma load_succeeds :
  configured lib host environ = true ->
  debug_toolbar_on lib environ = false \/ is_Some (environ !! "INTERNAL_IPS") ->
  succeeds (load lib host environ).
Proof.
  intros Hc Hips. unfold configured in Hc. rewrite !andb_true_iff in Hc.
  destruct Hc as ((((Hreq & Hvalues) & Hdirs) & Hvapid) & Hoidc).
  unfold required_present in Hreq. simpl in Hreq. rewrite !andb_true_iff in Hreq.
  destruct Hreq as (R1 & R2 & R3 & R4 & R5 & R6 & R7 & R8 & R9 & R10 & _).
  apply present_lookup in R1 as [v1 R1], R2 as [v2 R2], R3 as [v3 R3], R4 as [v4 R4],
    R5 as [v5 R5], R6 as [v6 R6], R7 as [v7 R7], R8 as [v8 R8], R9 as [v9 R9],
    R10 as [v10 R10].
  unfold values_accepted in Hvalues. rewrite !andb_true_iff in Hvalues.
  destruct Hvalues as (((Hdb & Hcache) & Hemail) & Hint).
  unfold directories_creatable in Hdirs. cbv zeta in Hdirs.
  apply andb_true_iff in Hdirs as [Hdata Hlog]. rewrite R2 in Hlog.
  unfold debug_toolbar_on in Hips. rewrite R2 in Hips.
  rewrite R4 in Hdb. rewrite R7 in Hemail. simpl in Hdb, Hemail.
  destruct (accepts_parse_url _ "DATABASE_URL" _ Hdb) as [databases Edb].
  destruct (accepts_parse_url _ "CACHE_URL" _ Hcache) as [caches Ecache].
  destruct (accepts_parse_url _ "EMAIL_URL" _ Hemail) as [email Eemail].
  destruct (make_data_dir_succeeds _ Hdata) as [data_dirs Edata].
  unfold load, env_bool, env_list, env_db_url, env_cache_url, env_email_url.
  rewrite Edata. simpl.
  rewrite (env_str_present _ _ R1), (env_str_present _ _ R2), (env_str_present _ _ R3),
    (env_str_present _ _ R4), (env_str_present _ _ R5), (env_str_present _ _ R6),
    (env_str_present _ _ R7), (env_str_present _ _ R8), (env_str_present _ _ R9),
    (env_str_present _ _ R10).
  simpl. rewrite Edb, Ecache. simpl. rewrite Eemail. simpl.
  destruct (make_log_dir_succeeds v2 data_dirs Hlog) as [log_dirs ->]. simpl.
  destruct (load_file_handler_succeeds (cast_bool lib v2)
              (env_str_none environ "LOGGING_FILE") Hint) as [fh ->]. simpl.
  destruct (load_toolbar_succeeds (cast_bool lib v2)
              (apps_before_toolbar (compute_PLUGINS (entry_points host "ephios.plugins")))
              MIDDLEWARE_base Hips) as [[[apps mw] ips] ->]. simpl.
  destruct (load_webpush_succeeds v10 R10 Hvapid) as [wp ->]. simpl.
  destruct (load_oidc_succeeds apps AUTHENTICATION_BACKENDS_base Hoidc)
    as [[[[en apps'] backends] oidc] ->]. simpl.
  by eexists.
Qed.

End Blocks.

(** C9, as the module has it. INTERNAL_IPS is read by one statement,
    inside the debug-toolbar block, and without a default. Take an
    environment and host on which nothing else can stop the run:
      - no value is a reference to another variable ([literal]);
      - the ten required variables are present ([required_present]);
      - DATABASE_URL, CACHE_URL (or its default), EMAIL_URL and, when
        set, LOGGING_BACKUP_DAYS are accepted by their parsers
        ([values_accepted]);
      - the data directory exists or can be made, and so can the
        directory of the log file when file logging is used
        ([directories_creatable]);
      - VAPID_PRIVATE_KEY_PATH is unset or empty, or the key file can be
        read and ADMINS yields an address ([push_configured]);
      - ENABLE_OIDC_CLIENT is false or unset, or the seven OIDC
        variables are present ([oidc_configured]).
    Then the module loads without INTERNAL_IPS whenever the toolbar
    block is not entered (DEBUG false, or DEBUG_TOOLBAR false); when the
    block is entered (DEBUG true and DEBUG_TOOLBAR true or unset) it
    loads if and only if INTERNAL_IPS is set. *)
Theorem INTERNAL_IPS_needed_only_with_toolbar
    (lib : Environ) (host : Host) (environ : gmap string string) :
  literal environ = true ->
  configured lib host environ = true ->
  (succeeds (load lib host environ) <->
   debug_toolbar_on lib environ = false \/ is_Some (environ !! "INTERNAL_IPS")).
Proof.
  intros _ Hc. split; [|by apply load_succeeds].
  intros [cfg Hcfg]. destruct (load_inv _ _ _ _ Hcfg) as (v & Hv & Hd & _ & _ & Hips).
  unfold debug_toolbar_on. rewrite Hv, <- Hd.
  destruct (toolbar_active lib environ (DEBUG cfg)); [right; by apply Hips | by left].
Qed.

Lemma INTERNAL_IPS_needed_only_with_toolbar_witness :
  Scenario.production_env !! "INTERNAL_IPS" = None
  /\ succeeds (load Scenario.demo_lib Scenario.demo_host Scenario.production_env).
Proof.
  split; [reflexivity|].
  apply (INTERNAL_IPS_needed_only_with_toolbar
           Scenario.demo_lib Scenario.demo_host Scenario.production_env).
  - vm_compute. reflexivity.
  - vm_compute. reflexivity.
  - left. vm_compute. reflexivity.
Defined.

(** C9 as stated fails: with every required variable present, DEBUG=true
    and neither DEBUG_TOOLBAR nor INTERNAL_IPS set, the module raises
    ImproperlyConfigured for INTERNAL_IPS. *)
Lemma INTERNAL_IPS_missing_is_fatal_in_debug :
  configured Scenario.demo_lib Scenario.demo_host Scenario.debug_env = true
  /\ Scenario.debug_env !! "INTERNAL_IPS" = None
  /\ load Scenario.demo_lib Scenario.demo_host Scenario.debug_env
     = Raise (ImproperlyConfigured "INTERNAL_IPS")
  /\ ~ succeeds (load Scenario.demo_lib Scenario.demo_host Scenario.debug_env).
Proof.
  assert (E : load Scenario.demo_lib Scenario.demo_host Scenario.debug_env
              = Raise (ImproperlyConfigured "INTERNAL_IPS"))
    by (vm_compute; reflexivity).
  split; [vm_compute; reflexivity|].
  split; [reflexivity|].
  split; [exact E|].
  intros [cfg Hcfg]. rewrite E in Hcfg. discriminate.
Qed.

End SettingsFacts.

Module ContextFacts.
Import Context.

Lemma update_footer_union (footer result : gmap string string) :
  update_footer footer result = result ∪ footer.
Proof.
  unfold update_footer.
  apply (map_fold_weak_ind (fun acc m => acc = m ∪ footer)).
  - by rewrite (left_id_L ∅ (∪)).
  - intros label url m acc _ ->. by rewrite insert_union_l.
Qed.

Lemma update_footer_lookup (footer result : gmap string string) (label : string) :
  update_footer footer result !! label =
  match result !! label with
  | Some url => Some url
  | None => footer !! label
  end.
Proof.
  rewrite update_footer_union.
  destruct (result !! label) as [url|] eqn:E.
  - by apply lookup_union_Some_l.
  - by rewrite lookup_union_r.
Qed.

Lemma collect_footer_from (responses : list (string * gmap string string))
    (footer : gmap string string) (label : string) :
  fold_left (fun footer response => update_footer footer response.2) responses footer
    !! label =
  match last_contribution label responses with
  | Some url => Some url
  | None => footer !! label
  end.
Proof.
  revert footer. induction responses as [|response later IH]; intros footer; simpl.
  - done.
  - rewrite IH. destruct (last_contribution label later); [done|].
    apply update_footer_lookup.
Qed.

Lemma collect_footer_lookup (responses : list (string * gmap string string))
    (label : string) :
  collect_footer responses !! label = last_contribution label responses.
Proof.
  unfold collect_footer. rewrite collect_footer_from.
  destruct (last_contribution label responses); [done | apply lookup_empty].
Qed.

Lemma collect_nav_from {NavItem : Type} (responses : list (string * list NavItem))
    (nav : list NavItem) :
  fold_left (fun nav response => nav ++ response.2) responses nav
  = nav ++ concat (map snd responses).
Proof.
  revert nav. induction responses as [|response later IH]; intros nav; simpl.
  - by rewrite app_nil_r.
  - rewrite IH. by rewrite <- app_assoc.
Qed.

(** C6. When the context processor returns (the version is known and
    SITE_URL is set), the footer maps each label to the URL of the last
    responder that used it, the navigation list is the concatenation of
    all responses in responder order, and without receivers both are
    empty. *)
Theorem base_context_aggregates {Request NavItem ParticipationStates : Type}
    (settings : Settings.Settings) (environ : gmap string string)
    (states : ParticipationStates) (language : string)
    (footer_link : Signal Request (gmap string string))
    (nav_link : Signal Request (list NavItem))
    (request : Request) (version site_url : string) :
  Settings.EPHIOS_VERSION settings = Some version ->
  environ !! "SITE_URL" = Some site_url ->
  exists ctx,
    ephios_base_context settings environ states language footer_link nav_link request
      = Ok ctx
    /\ (forall label,
         ctx_footer ctx !! label = last_contribution label (send footer_link request))
    /\ ctx_nav ctx = concat (map snd (send nav_link request))
    /\ (footer_link = [] -> ctx_footer ctx = ∅)
    /\ (nav_link = [] -> ctx_nav ctx = []).
Proof.
  intros Hversion Hsite.
  unfold ephios_base_context, settings_EPHIOS_VERSION, Settings.GET_SITE_URL,
    Settings.env_str.
  rewrite Hversion, Hsite. simpl. eexists. split; [reflexivity|]. simpl.
  split; [intros label; apply collect_footer_lookup|].
  split; [apply (collect_nav_from _ [])|].
  split; intros ->; reflexivity.
Qed.

Lemma base_context_aggregates_witness :
  exists cfg ctx,
    Settings.load Scenario.demo_lib Scenario.demo_host Scenario.site_env = Ok cfg
    /\ ephios_base_context cfg Scenario.site_env tt "de"
         Scenario.demo_footer_link Scenario.demo_nav_link tt = Ok ctx
    /\ ctx_footer ctx !! "Imprint" = Some "/guests/imprint"
    /\ ctx_footer ctx !! "Privacy" = Some "/pages/privacy"
    /\ ctx_nav ctx = ["Pages"; "Help"; "Guests"].
Proof.
  destruct (Settings.load Scenario.demo_lib Scenario.demo_host Scenario.site_env)
    as [cfg|e] eqn:E; [|vm_compute in E; discriminate].
  assert (Hversion : Settings.EPHIOS_VERSION cfg = Some "0.0.0").
  { vm_compute in E. injection E as <-. reflexivity. }
  assert (Hsite : Scenario.site_env !! "SITE_URL" = Some "https://ephios.example/")
    by reflexivity.
  destruct (base_context_aggregates cfg Scenario.site_env tt "de"
              Scenario.demo_footer_link Scenario.demo_nav_link tt _ _ Hversion Hsite)
    as (ctx & Hctx & Hfooter & Hnav & _).
  exists cfg, ctx. split; [reflexivity|]. split; [exact Hctx|].
  rewrite !Hfooter, Hnav. repeat split.
Defined.

End ContextFacts.

Module SimpleResourceFacts.
Import Orm SimpleResource.

Lemma collect_CASCADE {Row : Type} (points_at : Row -> bool) (rows : list Row) :
  collect CASCADE points_at rows
  = Ok (List.filter (fun r => negb (points_at r)) rows, List.filter points_at rows).
Proof. reflexivity. Qed.

Lemma kept_iff {Row : Type} (points_at : Row -> bool) (rows : list Row) (r : Row) :
  In r (List.filter (fun r => negb (points_at r)) rows)
  <-> In r rows /\ ~ In r (List.filter points_at rows).
Proof.
  rewrite !filter_In. destruct (points_at r); simpl; split.
  - intros [_ ?]. discriminate.
  - intros [Hr Hn]. exfalso. apply Hn. by split.
  - intros [Hr _]. split; [done|]. intros [_ ?]. discriminate.
  - intros [Hr _]. by split.
Qed.

(** C7. Deleting a category succeeds and removes from the Resource table
    the Resources that point at it, all N of them and nothing else;
    deleting a shift succeeds and removes the allocation records that
    point at it and nothing else, and leaves the Resource and category
    tables as they were. *)
Theorem cascade_deletes_exactly (d : DB) :
  (forall c, exists d',
      delete_category c d = Ok d'
      /\ (forall r, In r (resources d') <-> In r (resources d) /\ ~ In r (owned c d))
      /\ (forall r, In r (owned c d) <-> In r (resources d) /\ category r = c)
      /\ length (resources d') + length (owned c d) = length (resources d)
      /\ allocations d' = allocations d
      /\ shifts d' = shifts d)
  /\ (forall s, exists d',
      delete_shift s d = Ok d'
      /\ (forall a, In a (allocations d') <-> In a (allocations d) /\ ~ In a (allocated s d))
      /\ (forall a, In a (allocated s d) <-> In a (allocations d) /\ shift a = s)
      /\ length (allocations d') + length (allocated s d) = length (allocations d)
      /\ (forall a, allocated s d = [a] ->
           forall a', In a' (allocations d') <-> In a' (allocations d) /\ a' <> a)
      /\ resources d' = resources d
      /\ categories d' = categories d).
Proof.
  split.
  - intros c. unfold delete_category, Resource_category_on_delete, through_on_delete.
    rewrite !collect_CASCADE. simpl. eexists. split; [reflexivity|]. simpl.
    split; [intros r; apply kept_iff|].
    split.
    { intros r. unfold owned. rewrite filter_In, Z.eqb_eq. done. }
    split; [|done].
    unfold owned. rewrite Nat.add_comm. apply filter_length.
  - intros s. unfold delete_shift, ResourceAllocation_shift_on_delete, through_on_delete.
    rewrite !collect_CASCADE. simpl. eexists. split; [reflexivity|]. simpl.
    split; [intros a; apply kept_iff|].
    split.
    { intros a. unfold allocated. rewrite filter_In, Z.eqb_eq. done. }
    split.
    { unfold allocated. rewrite Nat.add_comm. apply filter_length. }
    split; [|done].
    intros a Hone a'. rewrite kept_iff. fold (allocated s d). rewrite Hone.
    simpl. split; intros [Hin Hne]; (split; [done|]); intros Heq; apply Hne; auto.
    by destruct Heq.
Qed.

Lemma cascade_deletes_exactly_witness :
  exists d',
    delete_shift 1 Scenario.demo_resources = Ok d'
    /\ allocations d' = [ {| allocation_id := 6; shift := 2 |} ]
    /\ resources d' = resources Scenario.demo_resources.
Proof.
  destruct (cascade_deletes_exactly Scenario.demo_resources) as [_ Hshift].
  destruct (Hshift 1%Z) as (d' & Hd & _ & _ & _ & _ & Hresources & _).
  exists d'. split; [exact Hd|]. split; [|exact Hresources].
  vm_compute in Hd. injection Hd as <-. reflexivity.
Defined.

(** Both deletions on the same tables: the category takes its two
    Resources and their many-to-many rows with it. *)
Example delete_runs :
  delete_shift 1 Scenario.demo_resources
  = Ok {| shifts := [2]%Z;
          categories := categories Scenario.demo_resources;
          resources := resources Scenario.demo_resources;
          allocations := [ {| allocation_id := 6; shift := 2 |} ];
          allocation_resources :=
            [ {| through_allocation := 6; through_resource := 10 |} ] |}
  /\ delete_category 1 Scenario.demo_resources
     = Ok {| shifts := [1; 2]%Z;
             categories := [];
             resources := [];
             allocations := allocations Scenario.demo_resources;
             allocation_resources := [] |}.
Proof. split; reflexivity. Qed.

End SimpleResourceFacts.

Module Migration0004Facts.
Import Orm Migration0004.

Lemma has_model_lookup (s : ProjectState) (model name : string) :
  is_Some (s !! (model, name)) -> has_model s model = true.
Proof.
  intros [f Hf]. unfold has_model. apply existsb_exists.
  exists ((model, name), f). split; [|by apply bool_decide_eq_true].
  apply list_elem_of_In. by apply elem_of_map_to_list.
Qed.

Lemma apply_operations (s : ProjectState) :
  is_Some (s !! ("qualification", "included_qualifications")) ->
  is_Some (s !! ("qualificationgrant", "user")) ->
  exists s', apply operations s = Ok s'
    /\ s' !! ("qualification", "included_qualifications")
       = Some included_qualifications_field.
Proof.
  intros Hf Hg. unfold operations. simpl. unfold state_forwards. simpl.
  rewrite (has_model_lookup s _ _ Hf). simpl.
  rewrite (has_model_lookup _ "qualificationgrant" "user")
    by (by rewrite lookup_insert_ne).
  eexists. split; [reflexivity|].
  rewrite lookup_insert_ne by done. by rewrite lookup_insert_eq.
Qed.

Lemma has_row_add (f : Field) (obj x : Z) (d : QualificationDB) :
  has_row (add f obj x d) obj x = true.
Proof.
  assert (Hself : (obj =? obj)%Z && (x =? x)%Z = true)
    by (rewrite !Z.eqb_refl; done).
  unfold add.
  destruct (has_row d obj x) eqn:E; simpl.
  - destruct (symmetrical f); simpl.
    + unfold has_row in *. simpl.
      destruct (existsb _ (through d)) eqn:E2 in |- *; simpl; [done|].
      rewrite existsb_app. unfold has_row in E. rewrite E. done.
    + done.
  - destruct (symmetrical f); simpl.
    + unfold has_row. simpl.
      destruct (existsb _ (through d ++ [(obj, x)])) eqn:E2 in |- *; simpl.
      * rewrite existsb_app. simpl. rewrite Hself. by rewrite orb_true_r.
      * rewrite !existsb_app. simpl. rewrite Hself. simpl.
        by rewrite orb_true_r.
    + unfold has_row. simpl. rewrite existsb_app. simpl. rewrite Hself.
      by rewrite orb_true_r.
Qed.

(** C8. Once the migration has run, a Qualification has the forward
    accessor included_qualifications and the reverse accessor included_by.
    If X is included in Y (a row from Y to X is stored, as
    Y.included_qualifications.add(X) stores it), then
    Y.included_qualifications contains X and X.included_by contains Y. *)
Theorem inclusion_queryable_both_ways (s : ProjectState) (d : QualificationDB) (X Y : Z) :
  is_Some (s !! ("qualification", "included_qualifications")) ->
  is_Some (s !! ("qualificationgrant", "user")) ->
  In X (qualifications d) ->
  In Y (qualifications d) ->
  exists s' f,
    apply operations s = Ok s'
    /\ s' !! ("qualification", "included_qualifications") = Some f
    /\ reverse_accessor "qualification" f = Some "included_by"
    /\ (has_row d Y X = true ->
        (exists l, related_all s' d Y "included_qualifications" = Ok l /\ In X l)
        /\ (exists l, related_all s' d X "included_by" = Ok l /\ In Y l))
    /\ has_row (add f Y X d) Y X = true
    /\ qualifications (add f Y X d) = qualifications d.
Proof.
  intros Hm2m Hfk HX HY.
  destruct (apply_operations s Hm2m Hfk) as (s' & Hs' & Hfield).
  exists s', included_qualifications_field.
  split; [done|]. split; [done|]. split; [reflexivity|].
  split.
  - intros Hrow. unfold related_all. rewrite Hfield. simpl. split.
    + eexists. split; [reflexivity|]. unfold forward_all. rewrite filter_In. done.
    + eexists. split; [reflexivity|]. unfold reverse_all. rewrite filter_In. done.
  - split; [apply has_row_add | reflexivity].
Qed.

Lemma inclusion_queryable_both_ways_witness :
  exists s',
    apply operations Scenario.demo_state = Ok s'
    /\ related_all s' Scenario.demo_qualifications 2 "included_qualifications" = Ok [1%Z]
    /\ related_all s' Scenario.demo_qualifications 1 "included_by" = Ok [2%Z].
Proof.
  destruct (inclusion_queryable_both_ways
              Scenario.demo_state Scenario.demo_qualifications 1 2)
    as (s' & f & Happly & Hfield & Hreverse & Hrow & _).
  - vm_compute. eauto.
  - vm_compute. eauto.
  - simpl. auto.
  - simpl. auto.
  - exists s'. split; [exact Happly|].
    unfold related_all. rewrite Hfield. simpl. rewrite Hreverse. simpl.
    split; reflexivity.
Defined.

End Migration0004Facts.

Module ConsequencesFacts.
Import Consequences.

Section View.
Variable DB : Type.
Variable editable_consequences : UserProfile -> DB -> list Consequence.
Variable deny : Consequence -> UserProfile -> DB -> Consequence * DB.
Variable confirm : Consequence -> UserProfile -> DB -> Consequence * DB.

Local Abbreviation get_object := (get_object editable_consequences).
Local Abbreviation post := (post editable_consequences deny confirm).
Local Abbreviation dispatch := (dispatch editable_consequences deny confirm).

Lemma dispatch_post (request : Request) (w : World DB) :
  is_authenticated (user request) = true ->
  method request = POST ->
  dispatch request w = post request w.
Proof. unfold Consequences.dispatch. by intros -> ->. Qed.

Lemma filter_pk_none (queryset : list Consequence) (k : Z) :
  Forall (fun c => pk c <> k) queryset ->
  filter (fun c => pk c = k) queryset = [].
Proof.
  induction 1 as [|c l Hc _ IH]; [done|].
  by rewrite filter_cons_False.
Qed.

Lemma get_object_not_found (request : Request) (w : World DB) :
  Forall (fun c => pk c <> kwargs_pk request)
    (editable_consequences (user request) (db w)) ->
  get_object request w = Raise Http404.
Proof.
  intros H. unfold Consequences.get_object, get_queryset.
  by rewrite (filter_pk_none _ _ H).
Qed.

Lemma filter_pk_unique (queryset : list Consequence) (c : Consequence) (k : Z) :
  NoDup (pk <$> queryset) -> c ∈ queryset -> pk c = k ->
  filter (fun c => pk c = k) queryset = [c].
Proof.
  induction queryset as [|a l IH]; intros Hnodup Hin Hk.
  - by apply elem_of_nil in Hin.
  - rewrite fmap_cons in Hnodup. apply NoDup_cons in Hnodup as [Hfresh Hnodup].
    apply elem_of_cons in Hin as [-> | Hin].
    + rewrite filter_cons_True by done. f_equal.
      apply filter_pk_none. apply Forall_forall. intros b Hb Hpk.
      apply Hfresh. apply list_elem_of_fmap. exists b. split; [congruence | done].
    + rewrite filter_cons_False; [by apply IH|].
      intros Hpk. apply Hfresh. apply list_elem_of_fmap. exists c.
      split; [congruence | done].
Qed.

(** A consequence of the queryset, whose rows have distinct primary
    keys, is found under its own key. *)
Lemma get_object_found (request : Request) (w : World DB) (c : Consequence) :
  NoDup (pk <$> editable_consequences (user request) (db w)) ->
  c ∈ editable_consequences (user request) (db w) ->
  pk c = kwargs_pk request ->
  get_object request w = Ok c.
Proof.
  intros Hnodup Hin Hpk. unfold Consequences.get_object, get_queryset.
  by rewrite (filter_pk_unique _ c _ Hnodup Hin Hpk).
Qed.

Lemma respond_db_calls (request : Request) (c : Consequence) (w : World DB) :
  db (respond request c w).2 = db w /\ calls (respond request c w).2 = calls w.
Proof.
  unfold respond. destruct (is_ajax request); [done|].
  by destruct (bool_decide (state c = FAILED)).
Qed.

Lemma post_frame_without_action (request : Request) (w : World DB)
    (action : option string) :
  POST_getitem request "action" = Ok action ->
  action <> Some "deny" ->
  action <> Some "confirm" ->
  db (post request w).2 = db w /\ calls (post request w).2 = calls w.
Proof.
  intros Haction Hdeny Hconfirm. unfold Consequences.post.
  destruct (get_object request w) as [c|e]; [|done].
  rewrite Haction.
  rewrite (bool_decide_eq_false_2 _ Hdeny), (bool_decide_eq_false_2 _ Hconfirm).
  apply respond_db_calls.
Qed.

(** C1. A POST with action "deny" or "confirm" by an authenticated user
    on a consequence the view finds: a background request is answered by
    a JSON body with exactly the keys state and fail_reason, holding the
    state and fail reason the consequence has after the call; any other
    request is answered by a redirect to event_management:index, and the
    error message is added to the messages exactly when that state is
    FAILED. *)
Theorem post_response_shape (request : Request) (w : World DB) (c : Consequence)
    (action : string) :
  is_authenticated (user request) = true ->
  method request = POST ->
  get_object request w = Ok c ->
  POST_getitem request "action" = Ok (Some action) ->
  action = "deny" \/ action = "confirm" ->
  let r := if bool_decide (action = "deny")
           then call_deny deny c (user request) w
           else call_confirm confirm c (user request) w in
  let flash := (ERROR, "There was an error performing that action.") in
  if is_ajax request then
    exists body,
      dispatch request w = (Ok (JsonResponse body), r.2)
      /\ dom body = {[ "state"; "fail_reason" ]}
      /\ body !! "state" = Some (JState (state r.1))
      /\ body !! "fail_reason" = Some (JString (fail_reason r.1))
  else
    exists w',
      dispatch request w = (Ok (HttpResponseRedirect "event_management:index"), w')
      /\ db w' = db r.2
      /\ calls w' = calls r.2
      /\ (state r.1 = FAILED -> messages w' = messages w ++ [flash])
      /\ (state r.1 <> FAILED -> messages w' = messages w).
Proof.
  intros Hauth Hmethod Hobject Haction Hcases r flash.
  rewrite (dispatch_post _ _ Hauth Hmethod). unfold Consequences.post.
  rewrite Hobject, Haction.
  assert (Hmsg : messages r.2 = messages w).
  { subst r. destruct (bool_decide (action = "deny")); reflexivity. }
  assert (Hbranch :
    (if bool_decide (Some action = Some "deny")
     then respond request (call_deny deny c (user request) w).1
            (call_deny deny c (user request) w).2
     else if bool_decide (Some action = Some "confirm")
          then respond request (call_confirm confirm c (user request) w).1
                 (call_confirm confirm c (user request) w).2
          else respond request c w)
    = respond request r.1 r.2).
  { subst r. destruct Hcases as [-> | ->]; reflexivity. }
  cbv zeta. cbv zeta in Hbranch. rewrite Hbranch. clear Hbranch.
  unfold respond.
  destruct (is_ajax request).
  - eexists. split; [reflexivity|]. split.
    + rewrite !dom_insert_L, dom_empty_L. set_solver.
    + split; [by rewrite lookup_insert_eq|].
      rewrite lookup_insert_ne by done. by rewrite lookup_insert_eq.
  - eexists. split; [reflexivity|].
    destruct (bool_decide (state r.1 = FAILED)) eqn:E.
    + apply bool_decide_eq_true in E. simpl. rewrite Hmsg. done.
    + apply bool_decide_eq_false in E. rewrite Hmsg. done.
Qed.

(** C2. A request whose target is not among editable_consequences of the
    requesting user changes nothing; sent as a POST by an authenticated
    user it ends in Http404 (not found), which is not PermissionDenied
    (forbidden). *)
Theorem uneditable_is_not_found (request : Request) (w : World DB) :
  Forall (fun c => pk c <> kwargs_pk request)
    (editable_consequences (user request) (db w)) ->
  (dispatch request w).2 = w
  /\ (is_authenticated (user request) = true ->
      method request = POST ->
      dispatch request w = (Raise Http404, w)
      /\ (dispatch request w).1 <> Raise PermissionDenied).
Proof.
  intros Hout. pose proof (get_object_not_found request w Hout) as Hget.
  assert (Hpost : post request w = (Raise Http404, w)).
  { unfold Consequences.post. by rewrite Hget. }
  split.
  - unfold Consequences.dispatch.
    destruct (negb (is_authenticated (user request))); [done|].
    destruct (method request); try done. by rewrite Hpost.
  - intros Hauth Hmethod. rewrite (dispatch_post _ _ Hauth Hmethod), Hpost. done.
Qed.

(** C3. When the action parameter is present with a value other than
    "deny" and "confirm", the request calls neither method and leaves
    the database as it was; the consequence the view found is the one
    the response is built from, unchanged. *)
Theorem unknown_action_changes_nothing (request : Request) (w : World DB)
    (action : option string) :
  POST_getitem request "action" = Ok action ->
  action <> Some "deny" ->
  action <> Some "confirm" ->
  calls (dispatch request w).2 = calls w
  /\ db (dispatch request w).2 = db w
  /\ (forall c,
        is_authenticated (user request) = true ->
        method request = POST ->
        get_object request w = Ok c ->
        dispatch request w = respond request c w).
Proof.
  intros Haction Hdeny Hconfirm.
  destruct (post_frame_without_action request w action Haction Hdeny Hconfirm)
    as [Hdb Hcalls].
  assert (Hframe : calls (dispatch request w).2 = calls w
                   /\ db (dispatch request w).2 = db w).
  { unfold Consequences.dispatch.
    destruct (negb (is_authenticated (user request))); [done|].
    destruct (method request); done. }
  destruct Hframe as [Hc Hd]. split; [done|]. split; [done|].
  intros c Hauth Hmethod Hobject.
  rewrite (dispatch_post _ _ Hauth Hmethod). unfold Consequences.post.
  rewrite Hobject, Haction.
  by rewrite (bool_decide_eq_false_2 _ Hdeny), (bool_decide_eq_false_2 _ Hconfirm).
Qed.

(** C10, as the view has it. post looks the consequence up before it
    reads the form. A POST without an "action" key by an authenticated
    user on a consequence the view finds raises MultiValueDictKeyError
    and changes nothing; and no POST without that key gets a response:
    each one ends in an exception. *)
Theorem missing_action_raises (request : Request) (w : World DB) :
  POST_data request !! "action" = None ->
  is_authenticated (user request) = true ->
  method request = POST ->
  (forall c, get_object request w = Ok c ->
     dispatch request w = (Raise (MultiValueDictKeyError "action"), w))
  /\ (exists e, dispatch request w = (Raise e, w)).
Proof.
  intros Hmissing Hauth Hmethod.
  rewrite (dispatch_post _ _ Hauth Hmethod). unfold Consequences.post, POST_getitem.
  rewrite Hmissing. split.
  - by intros c ->.
  - destruct (get_object request w) as [c|e]; eauto.
Qed.

End View.

Lemma post_response_shape_witness :
  exists w',
    Scenario.demo_dispatch
      (Scenario.demo_request 1 8 [("action", ["confirm"])] false) Scenario.demo_world
    = (Ok (HttpResponseRedirect "event_management:index"), w')
    /\ messages w' = [(ERROR, "There was an error performing that action.")].
Proof.
  pose proof (post_response_shape Scenario.DemoDB Scenario.demo_editable_consequences
                Scenario.demo_deny Scenario.demo_confirm
                (Scenario.demo_request 1 8 [("action", ["confirm"])] false)
                Scenario.demo_world (Scenario.pending 8) "confirm") as H.
  specialize (H ltac:(reflexivity) ltac:(reflexivity) ltac:(vm_compute; reflexivity)
                ltac:(vm_compute; reflexivity) ltac:(right; reflexivity)).
  cbv zeta in H. change (is_ajax _) with false in H. cbv iota in H.
  destruct H as (w' & Hresponse & _ & _ & Hfailed & _).
  exists w'. split; [exact Hresponse|].
  apply Hfailed. vm_compute. reflexivity.
Defined.

Lemma uneditable_is_not_found_witness :
  Scenario.demo_dispatch
    (Scenario.demo_request 2 7 [("action", ["confirm"])] false) Scenario.demo_world
  = (Raise Http404, Scenario.demo_world).
Proof.
  apply (uneditable_is_not_found Scenario.DemoDB Scenario.demo_editable_consequences
           Scenario.demo_deny Scenario.demo_confirm
           (Scenario.demo_request 2 7 [("action", ["confirm"])] false)
           Scenario.demo_world).
  - vm_compute. constructor.
  - reflexivity.
  - reflexivity.
Defined.

Lemma unknown_action_changes_nothing_witness :
  calls (Scenario.demo_dispatch
           (Scenario.demo_request 1 7 [("action", ["frobnicate"])] true)
           Scenario.demo_world).2 = []
  /\ db (Scenario.demo_dispatch
           (Scenario.demo_request 1 7 [("action", ["frobnicate"])] true)
           Scenario.demo_world).2 = Scenario.demo_db.
Proof.
  destruct (unknown_action_changes_nothing Scenario.DemoDB
              Scenario.demo_editable_consequences Scenario.demo_deny Scenario.demo_confirm
              (Scenario.demo_request 1 7 [("action", ["frobnicate"])] true)
              Scenario.demo_world (Some "frobnicate"))
    as (Hcalls & Hdb & _).
  - vm_compute. reflexivity.
  - discriminate.
  - discriminate.
  - split; [exact Hcalls | exact Hdb].
Defined.

Lemma missing_action_raises_witness :
  Scenario.demo_dispatch (Scenario.demo_request 1 7 [] false) Scenario.demo_world
  = (Raise (MultiValueDictKeyError "action"), Scenario.demo_world).
Proof.
  destruct (missing_action_raises Scenario.DemoDB Scenario.demo_editable_consequences
              Scenario.demo_deny Scenario.demo_confirm
              (Scenario.demo_request 1 7 [] false) Scenario.demo_world)
    as (Hfound & _).
  - reflexivity.
  - reflexivity.
  - reflexivity.
  - apply (Hfound (Scenario.pending 7)). vm_compute. reflexivity.
Defined.

(** C10 as stated fails: a POST without an "action" key whose target is
    not editable by the (authenticated) user ends in Http404, raised by
    get_object before the form is read, not in a key-lookup error. *)
Lemma missing_action_on_uneditable_is_not_found :
  POST_data (Scenario.demo_request 2 7 [] false) !! "action" = None
  /\ method (Scenario.demo_request 2 7 [] false) = POST
  /\ is_authenticated (user (Scenario.demo_request 2 7 [] false)) = true
  /\ Scenario.demo_dispatch (Scenario.demo_request 2 7 [] false) Scenario.demo_world
     = (Raise Http404, Scenario.demo_world)
  /\ (Scenario.demo_dispatch (Scenario.demo_request 2 7 [] false) Scenario.demo_world).1
     <> Raise (MultiValueDictKeyError "action").
Proof.
  assert (E : Scenario.demo_dispatch (Scenario.demo_request 2 7 [] false)
                Scenario.demo_world = (Raise Http404, Scenario.demo_world))
    by (vm_compute; reflexivity).
  rewrite E. repeat split. simpl. discriminate.
Qed.

End ConsequencesFacts.

(** * Further properties of the modelled code *)

(** Takes a successful run of the settings module apart, statement by
    statement, and leaves one named hypothesis per statement. *)
Ltac invert_load H :=
  unfold Settings.load in H;
  apply bind_inv in H as (data_dirs & Hdata_dirs & H);
  apply bind_inv in H as (secret_key & Hsecret_key & H);
  apply bind_inv in H as (debug & Hdebug & H);
  apply bind_inv in H as (allowed_hosts & Hallowed_hosts & H);
  apply bind_inv in H as (databases & Hdatabases & H);
  apply bind_inv in H as (caches & Hcaches & H);
  apply bind_inv in H as (static_url & Hstatic_url & H);
  apply bind_inv in H as (static_root & Hstatic_root & H);
  apply bind_inv in H as (email_config & Hemail_config & H);
  apply bind_inv in H as (default_from_email & Hdefault_from_email & H);
  apply bind_inv in H as (server_email & Hserver_email & H);
  apply bind_inv in H as (admins_raw & Hadmins_raw & H);
  apply bind_inv in H as (log_dirs & Hlog_dirs & H);
  apply bind_inv in H as (file_handler & Hfile_handler & H);
  apply bind_inv in H as ([[apps mw] ips] & Htoolbar & H);
  apply bind_inv in H as (webpush & Hwebpush & H);
  apply bind_inv in H as ([[[oidc_enabled apps'] backends] oidc] & Hoidc & H);
  injection H as <-; simpl.

Module SettingsExtra.
Import Settings.

Lemma env_str_Ok (environ : gmap string string) (var v : string) :
  env_str environ var = Ok v <-> environ !! var = Some v.
Proof.
  unfold env_str. destruct (environ !! var); split; intros H; congruence.
Qed.

Lemma list_ascii_of_string_app (s t : string) :
  String.list_ascii_of_string (s +:+ t)
  = String.list_ascii_of_string s ++ String.list_ascii_of_string t.
Proof. induction s as [|c s IH]; simpl; [done | by rewrite IH]. Qed.

Lemma strip_trailing_slash_slash (s : string) :
  strip_trailing_slash (s +:+ "/") = s.
Proof.
  unfold strip_trailing_slash. rewrite list_ascii_of_string_app. simpl.
  rewrite reverse_snoc. rewrite bool_decide_eq_true_2 by done.
  rewrite reverse_involutive. apply String.string_of_list_ascii_of_string.
Qed.

Lemma strip_trailing_slash_other (s : string) :
  (forall t, s <> t +:+ "/") -> strip_trailing_slash s = s.
Proof.
  intros Hs. unfold strip_trailing_slash.
  destruct (reverse (String.list_ascii_of_string s)) as [|c rest] eqn:E; [done|].
  destruct (bool_decide (c = "/"%char)) eqn:Ec; [|done].
  apply bool_decide_eq_true in Ec. subst c. exfalso.
  apply (Hs (String.string_of_list_ascii (reverse rest))).
  rewrite <- (String.string_of_list_ascii_of_string s) at 1.
  rewrite <- (reverse_involutive (String.list_ascii_of_string s)), E.
  rewrite reverse_cons.
  rewrite <- (String.list_ascii_of_string_of_list_ascii (reverse rest)) at 1.
  change ["/"%char] with (String.list_ascii_of_string "/").
  rewrite <- list_ascii_of_string_app.
  apply String.string_of_list_ascii_of_string.
Qed.

(** X1. For a value that is not a reference (does not start with "$"),
    GET_SITE_URL drops exactly one trailing slash: for a SITE_URL that
    is [s] followed by "/" it returns [s] (so "a//" gives "a/"); a
    SITE_URL that does not end in "/" is returned as it is; without
    SITE_URL the call raises ImproperlyConfigured. *)
Theorem GET_SITE_URL_strips_one_slash (environ : gmap string string) (s : string) :
  is_proxy s = false ->
  GET_SITE_URL (<["SITE_URL" := s +:+ "/"]> environ) = Ok s
  /\ ((forall t, s <> t +:+ "/") -> GET_SITE_URL (<["SITE_URL" := s]> environ) = Ok s)
  /\ GET_SITE_URL (delete "SITE_URL" environ) = Raise (ImproperlyConfigured "SITE_URL").
Proof.
  intros _.
  unfold GET_SITE_URL, env_str. rewrite !lookup_insert_eq, lookup_delete_eq. simpl.
  split; [by rewrite strip_trailing_slash_slash|].
  split; [|done]. intros Hs. by rewrite strip_trailing_slash_other.
Qed.

Lemma GET_SITE_URL_strips_one_slash_witness :
  GET_SITE_URL (<["SITE_URL" := "https://ephios.example//"]> ∅)
  = Ok "https://ephios.example/".
Proof.
  apply (GET_SITE_URL_strips_one_slash ∅ "https://ephios.example/").
  reflexivity.
Defined.

Example GET_SITE_URL_runs :
  GET_SITE_URL (<["SITE_URL" := "https://ephios.example//"]> ∅)
    = Ok "https://ephios.example/"
  /\ GET_SITE_URL (<["SITE_URL" := "https://ephios.example"]> ∅)
    = Ok "https://ephios.example"
  /\ GET_SITE_URL (<["SITE_URL" := ""]> ∅) = Ok "".
Proof. repeat split. Qed.

Section Loaded.
Variable lib : Environ.
Variable host : Host.
Variable environ : gmap string string.

Lemma env_url_present (parser : string -> option Conf) (var : string) (c : Conf) :
  (v <- env_str environ var ;; parse_url parser var v) = Ok c ->
  is_Some (environ !! var).
Proof.
  intros H. apply bind_inv in H as (v & Hv & _). apply env_str_Ok in Hv. eauto.
Qed.

Lemma load_reads_required (cfg : Settings) :
  load lib host environ = Ok cfg ->
  Forall (fun var => is_Some (environ !! var)) required_vars.
Proof.
  intros H. invert_load H.
  apply env_str_Ok in Hsecret_key, Hstatic_url, Hstatic_root, Hdefault_from_email,
    Hserver_email, Hadmins_raw.
  apply bind_inv in Hdebug as (v1 & Hv1%env_str_Ok & _).
  apply bind_inv in Hallowed_hosts as (v2 & Hv2%env_str_Ok & _).
  apply env_url_present in Hdatabases, Hemail_config.
  unfold required_vars. repeat (apply Forall_cons; split; [by eauto|]).
  apply Forall_nil. done.
Qed.

(** X2. A run on an environment that lacks any one of the ten variables
    read without a default ends in an exception: the module never loads
    with a partial configuration. *)
Theorem missing_required_var_is_fatal (var : string) :
  var ∈ required_vars ->
  environ !! var = None ->
  exists e, load lib host environ = Raise e.
Proof.
  intros Hvar Hmissing.
  destruct (load lib host environ) as [cfg|e] eqn:E; [|by eauto].
  pose proof (load_reads_required cfg E) as Hall.
  rewrite Forall_forall in Hall. destruct (Hall var Hvar) as [v Hv]. congruence.
Qed.

(** X3. The debug toolbar is installed only in debug mode. With DEBUG
    false the middleware list is the base list and INTERNAL_IPS stays
    unbound, whatever DEBUG_TOOLBAR and INTERNAL_IPS say; with DEBUG true
    and DEBUG_TOOLBAR true or unset the toolbar middleware is put in
    front of the base list and INTERNAL_IPS is the value read. *)
Theorem toolbar_only_in_debug (cfg : Settings) :
  load lib host environ = Ok cfg ->
  (DEBUG cfg = false ->
     MIDDLEWARE cfg = MIDDLEWARE_base /\ INTERNAL_IPS cfg = None)
  /\ (toolbar_active lib environ (DEBUG cfg) = false ->
     MIDDLEWARE cfg = MIDDLEWARE_base /\ INTERNAL_IPS cfg = None)
  /\ (toolbar_active lib environ (DEBUG cfg) = true ->
     MIDDLEWARE cfg = "debug_toolbar.middleware.DebugToolbarMiddleware" :: MIDDLEWARE_base
     /\ INTERNAL_IPS cfg = environ !! "INTERNAL_IPS"
     /\ is_Some (INTERNAL_IPS cfg)).
Proof.
  intros H. invert_load H. unfold load_toolbar in Htoolbar.
  split; [|split].
  - intros ->. simpl in Htoolbar. by injection Htoolbar as <- <- <-.
  - intros Hoff. rewrite Hoff in Htoolbar. by injection Htoolbar as <- <- <-.
  - intros Hon. rewrite Hon in Htoolbar.
    apply bind_inv in Htoolbar as (ip & Hip%env_str_Ok & Htoolbar).
    injection Htoolbar as <- <- <-. rewrite Hip. eauto.
Qed.

Definition toolbar_apps (debug : bool) : list string :=
  if toolbar_active lib environ debug then ["django_extensions"; "debug_toolbar"] else [].

Definition oidc_apps (enabled : bool) : list string :=
  if enabled then ["mozilla_django_oidc"] else [].

(** X4. INSTALLED_APPS of a loaded configuration is, in this order: the
    three core modules, the base list, the plugins, dynamic_preferences,
    then the debug-toolbar apps and the OIDC app when their blocks ran.
    So the ephios modules come before every other app and every plugin
    comes before dynamic_preferences. *)
Theorem INSTALLED_APPS_order (cfg : Settings) :
  load lib host environ = Ok cfg ->
  INSTALLED_APPS cfg
  = EPHIOS_CORE_MODULES ++ INSTALLED_APPS_base ++ PLUGINS cfg
    ++ ["dynamic_preferences"] ++ toolbar_apps (DEBUG cfg)
    ++ oidc_apps (ENABLE_OIDC_CLIENT cfg)
  /\ ENABLE_OIDC_CLIENT cfg = env_bool_default lib environ "ENABLE_OIDC_CLIENT" false.
Proof.
  intros H. invert_load H.
  unfold load_toolbar, toolbar_apps in *. unfold load_oidc in Hoidc.
  assert (Happs : apps = apps_before_toolbar
                    (compute_PLUGINS (entry_points host "ephios.plugins"))
                  ++ (if toolbar_active lib environ debug
                      then ["django_extensions"; "debug_toolbar"] else [])).
  { destruct (toolbar_active lib environ debug).
    - apply bind_inv in Htoolbar as (ip & _ & Htoolbar).
      injection Htoolbar as <- _ _. by rewrite <- app_assoc.
    - injection Htoolbar as <- _ _. by rewrite app_nil_r. }
  destruct (env_bool_default lib environ "ENABLE_OIDC_CLIENT" false).
  - repeat (apply bind_inv in Hoidc as (? & _ & Hoidc)).
    injection Hoidc as <- <- _ _. split; [|done]. rewrite Happs.
    unfold apps_before_toolbar. simpl. by rewrite <- !app_assoc.
  - injection Hoidc as <- <- _ _. split; [|done]. rewrite Happs.
    unfold apps_before_toolbar. simpl. rewrite app_nil_r. by rewrite <- !app_assoc.
Qed.

(** X5. In an environment without references, the log file handler
    of a loaded configuration rotates a file exactly when DEBUG is false
    and LOGGING_FILE is set to a non-empty value (an empty LOGGING_FILE
    counts as unset); it then writes to LOGGING_FILE and keeps
    LOGGING_BACKUP_DAYS backups, 14 when the variable is unset. In every
    other case it is the null handler. *)
Theorem file_handler_cases (cfg : Settings) :
  literal environ = true ->
  load lib host environ = Ok cfg ->
  LOGGING_FILE cfg
  = match environ !! "LOGGING_FILE" with
    | Some file => if bool_decide (file = "") then None else Some file
    | None => None
    end
  /\ match LOGGING_FILE cfg with
     | Some file =>
         file <> ""
         /\ if DEBUG cfg then LOGGING_file_handler cfg = NullHandler
            else exists n,
                LOGGING_file_handler cfg = TimedRotatingFileHandler file n
                /\ match environ !! "LOGGING_BACKUP_DAYS" with
                   | Some v => cast_int lib v = Some n
                   | None => n = 14%Z
                   end
     | None => LOGGING_file_handler cfg = NullHandler
     end.
Proof.
  intros _ H. invert_load H. split; [done|].
  unfold load_file_handler, use_file_logging, env_str_none in *.
  destruct (environ !! "LOGGING_FILE") as [file|]; simpl in *.
  - destruct (bool_decide (file = "")) eqn:Efile; simpl in *.
    { rewrite andb_false_r in Hfile_handler. by injection Hfile_handler as <-. }
    apply bool_decide_eq_false in Efile. split; [done|].
    destruct debug; simpl in *.
    + by injection Hfile_handler as <-.
    + apply bind_inv in Hfile_handler as (n & Hn & Hfile_handler).
      injection Hfile_handler as <-. exists n. split; [done|].
      unfold env_int_default in Hn.
      destruct (environ !! "LOGGING_BACKUP_DAYS") as [v|].
      * destruct (cast_int lib v); [congruence | discriminate].
      * congruence.
  - rewrite andb_false_r in Hfile_handler. by injection Hfile_handler as <-.
Qed.

(** X6. The OIDC block. While ENABLE_OIDC_CLIENT is false or unset no
    OIDC variable is read, no OIDC setting is bound and the
    authentication backends are the two base ones. When it is true a
    loaded configuration has read all seven OIDC variables and has the
    OIDC backend as its last backend. *)
Theorem oidc_block_cases (cfg : Settings) :
  load lib host environ = Ok cfg ->
  if env_bool_default lib environ "ENABLE_OIDC_CLIENT" false then
    Forall (fun var => is_Some (environ !! var)) oidc_vars
    /\ AUTHENTICATION_BACKENDS cfg
       = AUTHENTICATION_BACKENDS_base
         ++ ["mozilla_django_oidc.auth.OIDCAuthenticationBackend"]
    /\ (exists o, OIDC cfg = Some o
          /\ environ !! "OIDC_RP_CLIENT_ID" = Some (OIDC_RP_CLIENT_ID o)
          /\ environ !! "OIDC_OP_JWKS_ENDPOINT" = Some (OIDC_OP_JWKS_ENDPOINT o))
  else
    OIDC cfg = None
    /\ ENABLE_OIDC_CLIENT cfg = false
    /\ AUTHENTICATION_BACKENDS cfg = AUTHENTICATION_BACKENDS_base.
Proof.
  intros H. invert_load H. unfold load_oidc in Hoidc.
  destruct (env_bool_default lib environ "ENABLE_OIDC_CLIENT" false).
  - apply bind_inv in Hoidc as (v1 & H1%env_str_Ok & Hoidc).
    apply bind_inv in Hoidc as (v2 & H2%env_str_Ok & Hoidc).
    apply bind_inv in Hoidc as (v3 & H3%env_str_Ok & Hoidc).
    apply bind_inv in Hoidc as (v4 & H4%env_str_Ok & Hoidc).
    apply bind_inv in Hoidc as (v5 & H5%env_str_Ok & Hoidc).
    apply bind_inv in Hoidc as (v6 & H6%env_str_Ok & Hoidc).
    apply bind_inv in Hoidc as (v7 & H7%env_str_Ok & Hoidc).
    injection Hoidc as <- <- <- <-. split; [|split; [done|]].
    + unfold oidc_vars. repeat (apply Forall_cons; split; [by eauto|]).
      by apply Forall_nil.
    + eexists. split; [reflexivity|]. simpl. done.
  - by injection Hoidc as <- <- <- <-.
Qed.

(** X7. Push notifications. Without VAPID_PRIVATE_KEY_PATH, or with an
    empty one, WEBPUSH_SETTINGS stays unbound. With a path, a loaded
    configuration carries the public key of that file and the address of
    the first entry of ADMINS as the contact. *)
Theorem webpush_block_cases (cfg : Settings) :
  load lib host environ = Ok cfg ->
  match environ !! "VAPID_PRIVATE_KEY_PATH" with
  | None => WEBPUSH_SETTINGS cfg = None
  | Some path =>
      if bool_decide (path = "") then WEBPUSH_SETTINGS cfg = None
      else exists pub admin rest,
          vapid_from_file host path = Some pub
          /\ ADMINS cfg = admin :: rest
          /\ WEBPUSH_SETTINGS cfg
             = Some {| VAPID_PUBLIC_KEY := pub;
                       VAPID_PRIVATE_KEY := path;
                       VAPID_ADMIN_EMAIL := admin.2 |}
  end.
Proof.
  intros H. invert_load H. unfold load_webpush, env_str_none in Hwebpush.
  destruct (environ !! "VAPID_PRIVATE_KEY_PATH") as [path|].
  - destruct (bool_decide (path = "")) eqn:Epath; [by injection Hwebpush as <-|].
    rewrite Epath in Hwebpush.
    destruct (vapid_from_file host path) as [pub|]; [|discriminate].
    destruct (getaddresses host admins_raw) as [|admin rest]; [discriminate|].
    injection Hwebpush as <-. by exists pub, admin, rest.
  - by injection Hwebpush as <-.
Qed.

(** X9. Three settings follow DEBUG alone: COMPRESS_ENABLED and
    CRISPY_FAIL_SILENTLY are its negation in every loaded configuration,
    and the password reset timeout is 2419200 seconds (28 days). *)
Theorem settings_derived_from_DEBUG (cfg : Settings) :
  load lib host environ = Ok cfg ->
  COMPRESS_ENABLED cfg = negb (DEBUG cfg)
  /\ CRISPY_FAIL_SILENTLY cfg = negb (DEBUG cfg)
  /\ PASSWORD_RESET_TIMEOUT cfg = 2419200%Z.
Proof. intros H. invert_load H. done. Qed.

(** X10. In an environment without references, INTERNAL_IPS is read
    nowhere but in the debug-toolbar block: while that block is not
    entered, setting or changing the variable changes neither the
    outcome nor any setting of the run. *)
Theorem INTERNAL_IPS_unread_without_toolbar (v : string) :
  literal environ = true ->
  debug_toolbar_on lib environ = false ->
  load lib host (<["INTERNAL_IPS" := v]> environ) = load lib host environ.
Proof.
  intros _ Hoff. unfold debug_toolbar_on, toolbar_active, env_bool_default in Hoff.
  unfold load, env_bool, env_list, env_db_url, env_cache_url, env_email_url,
    env_str, env_str_default, env_str_none, make_log_dir, load_file_handler,
    load_toolbar, toolbar_active, env_int_default, env_bool_default, load_webpush,
    load_oidc, env_str, env_str_none, env_bool_default.
  rewrite lookup_insert_eq.
  rewrite !(lookup_insert_ne environ "INTERNAL_IPS") by done.
  destruct (make_data_dir host _) as [dirs|e]; simpl; [|done].
  destruct (environ !! "SECRET_KEY"); simpl; [|done].
  destruct (environ !! "DEBUG") as [d|]; simpl; [|done].
  rewrite Hoff. reflexivity.
Qed.

End Loaded.

Lemma missing_required_var_is_fatal_witness :
  exists e, load Scenario.demo_lib Scenario.demo_host Scenario.base_env = Raise e.
Proof.
  apply (missing_required_var_is_fatal Scenario.demo_lib Scenario.demo_host
           Scenario.base_env "DEBUG").
  - unfold required_vars. set_solver.
  - reflexivity.
Defined.

Lemma toolbar_only_in_debug_witness :
  exists cfg,
    load Scenario.demo_lib Scenario.demo_host Scenario.production_toolbar_env = Ok cfg
    /\ MIDDLEWARE cfg = MIDDLEWARE_base
    /\ INTERNAL_IPS cfg = None.
Proof.
  destruct (load Scenario.demo_lib Scenario.demo_host Scenario.production_toolbar_env)
    as [cfg|e] eqn:E; [|vm_compute in E; discriminate].
  exists cfg. split; [reflexivity|].
  destruct (toolbar_only_in_debug _ _ _ cfg E) as (Hproduction & _).
  apply Hproduction. vm_compute in E. injection E as <-. reflexivity.
Defined.

Lemma INSTALLED_APPS_order_witness :
  exists cfg,
    load Scenario.demo_lib Scenario.demo_host Scenario.oidc_env = Ok cfg
    /\ INSTALLED_APPS cfg
       = EPHIOS_CORE_MODULES ++ INSTALLED_APPS_base ++ PLUGINS cfg
         ++ ["dynamic_preferences"; "mozilla_django_oidc"].
Proof.
  destruct (load Scenario.demo_lib Scenario.demo_host Scenario.oidc_env)
    as [cfg|e] eqn:E; [|vm_compute in E; discriminate].
  exists cfg. split; [reflexivity|].
  destruct (INSTALLED_APPS_order _ _ _ cfg E) as (Happs & Henabled).
  rewrite Happs, Henabled.
  assert (Hdebug : DEBUG cfg = false).
  { vm_compute in E. injection E as <-. reflexivity. }
  rewrite Hdebug. reflexivity.
Defined.

Lemma file_handler_cases_witness :
  exists cfg,
    load Scenario.demo_lib Scenario.demo_host Scenario.file_logging_env = Ok cfg
    /\ LOGGING_file_handler cfg = TimedRotatingFileHandler "/var/log/ephios/ephios.log" 14.
Proof.
  destruct (load Scenario.demo_lib Scenario.demo_host Scenario.file_logging_env)
    as [cfg|e] eqn:E; [|vm_compute in E; discriminate].
  exists cfg. split; [reflexivity|].
  assert (Hliteral : literal Scenario.file_logging_env = true)
    by (vm_compute; reflexivity).
  destruct (file_handler_cases _ _ _ cfg Hliteral E) as (Hfile & Hhandler).
  rewrite Hfile in Hhandler.
  assert (Hdebug : DEBUG cfg = false).
  { vm_compute in E. injection E as <-. reflexivity. }
  rewrite Hdebug in Hhandler.
  change (Scenario.file_logging_env !! "LOGGING_FILE")
    with (Some "/var/log/ephios/ephios.log") in Hhandler.
  change (Scenario.file_logging_env !! "LOGGING_BACKUP_DAYS")
    with (@None string) in Hhandler.
  change (bool_decide ("/var/log/ephios/ephios.log" = "")) with false in Hhandler.
  destruct Hhandler as (_ & n & Hn & ->). exact Hn.
Defined.

(** An empty LOGGING_FILE is no log file. *)
Example empty_LOGGING_FILE_runs :
  exists cfg,
    load Scenario.demo_lib Scenario.demo_host
      (<["LOGGING_FILE" := ""]> Scenario.production_env) = Ok cfg
    /\ LOGGING_FILE cfg = None
    /\ LOGGING_file_handler cfg = NullHandler.
Proof. eexists. split; [vm_compute; reflexivity|]. split; reflexivity. Qed.

Lemma oidc_block_cases_witness :
  exists cfg,
    load Scenario.demo_lib Scenario.demo_host Scenario.oidc_env = Ok cfg
    /\ last (AUTHENTICATION_BACKENDS cfg)
       = Some "mozilla_django_oidc.auth.OIDCAuthenticationBackend".
Proof.
  destruct (load Scenario.demo_lib Scenario.demo_host Scenario.oidc_env)
    as [cfg|e] eqn:E; [|vm_compute in E; discriminate].
  exists cfg. split; [reflexivity|].
  pose proof (oidc_block_cases _ _ _ cfg E) as H.
  change (env_bool_default Scenario.demo_lib Scenario.oidc_env "ENABLE_OIDC_CLIENT" false)
    with true in H.
  destruct H as (_ & -> & _). reflexivity.
Defined.

Lemma webpush_block_cases_witness :
  exists cfg w,
    load Scenario.demo_lib Scenario.vapid_host Scenario.vapid_env = Ok cfg
    /\ WEBPUSH_SETTINGS cfg = Some w
    /\ VAPID_ADMIN_EMAIL w = "Root User <root@localhost>".
Proof.
  destruct (load Scenario.demo_lib Scenario.vapid_host Scenario.vapid_env)
    as [cfg|e] eqn:E; [|vm_compute in E; discriminate].
  pose proof (webpush_block_cases _ _ _ cfg E) as H.
  change (Scenario.vapid_env !! "VAPID_PRIVATE_KEY_PATH")
    with (Some "/etc/ephios/vapid.pem") in H.
  change (bool_decide ("/etc/ephios/vapid.pem" = "")) with false in H.
  destruct H as (pub & admin & rest & _ & Hadmins & Hwebpush).
  eexists cfg, _. split; [reflexivity|]. split; [exact Hwebpush|]. simpl.
  assert (Hfirst : ADMINS cfg = [("", "Root User <root@localhost>")]).
  { vm_compute in E. injection E as <-. reflexivity. }
  rewrite Hfirst in Hadmins. injection Hadmins as <- _. reflexivity.
Defined.

Lemma settings_derived_from_DEBUG_witness :
  exists cfg,
    load Scenario.demo_lib Scenario.demo_host Scenario.production_env = Ok cfg
    /\ COMPRESS_ENABLED cfg = true
    /\ PASSWORD_RESET_TIMEOUT cfg = 2419200%Z.
Proof.
  destruct (load Scenario.demo_lib Scenario.demo_host Scenario.production_env)
    as [cfg|e] eqn:E; [|vm_compute in E; discriminate].
  exists cfg. split; [reflexivity|].
  destruct (settings_derived_from_DEBUG _ _ _ cfg E) as (-> & _ & ->).
  split; [|reflexivity].
  vm_compute in E. injection E as <-. reflexivity.
Defined.

Lemma INTERNAL_IPS_unread_without_toolbar_witness :
  load Scenario.demo_lib Scenario.demo_host
    (<["INTERNAL_IPS" := "127.0.0.1"]> Scenario.production_env)
  = load Scenario.demo_lib Scenario.demo_host Scenario.production_env.
Proof.
  apply (INTERNAL_IPS_unread_without_toolbar Scenario.demo_lib Scenario.demo_host
           Scenario.production_env "127.0.0.1").
  - vm_compute. reflexivity.
  - vm_compute. reflexivity.
Defined.

End SettingsExtra.

Module ContextExtra.
Import Context.

Lemma collect_footer_onto (responses : list (string * gmap string string))
    (footer : gmap string string) :
  fold_left (fun footer response => update_footer footer response.2) responses footer
  = collect_footer responses ∪ footer.
Proof.
  apply map_eq. intros label.
  rewrite ContextFacts.collect_footer_from.
  destruct (last_contribution label responses) as [url|] eqn:E.
  - symmetry. apply lookup_union_Some_l.
    by rewrite ContextFacts.collect_footer_lookup.
  - rewrite lookup_union_r; [done|].
    by rewrite ContextFacts.collect_footer_lookup.
Qed.

Lemma collect_footer_app (earlier later : list (string * gmap string string)) :
  collect_footer (earlier ++ later) = collect_footer later ∪ collect_footer earlier.
Proof.
  unfold collect_footer at 1. rewrite fold_left_app.
  fold (collect_footer earlier). apply collect_footer_onto.
Qed.

(** X11. Aggregation composes over the responder list: the footer of
    two runs of responders is the footer of the later run laid over that
    of the earlier run, and the navigation list is the two navigation
    lists one after the other. *)
Theorem aggregation_composes {NavItem : Type}
    (earlier later : list (string * gmap string string))
    (nav_earlier nav_later : list (string * list NavItem)) :
  collect_footer (earlier ++ later) = collect_footer later ∪ collect_footer earlier
  /\ collect_nav (nav_earlier ++ nav_later)
     = collect_nav nav_earlier ++ collect_nav nav_later.
Proof.
  split; [apply collect_footer_app|].
  unfold collect_nav. rewrite fold_left_app.
  rewrite !(ContextFacts.collect_nav_from _ []).
  rewrite ContextFacts.collect_nav_from. done.
Qed.

Lemma collect_footer_cons (response : string * gmap string string)
    (responses : list (string * gmap string string)) :
  collect_footer (response :: responses) = collect_footer responses ∪ response.2.
Proof.
  change (response :: responses) with ([response] ++ responses).
  rewrite collect_footer_app. f_equal. unfold collect_footer. simpl.
  rewrite ContextFacts.update_footer_union. apply (right_id_L ∅ (∪)).
Qed.

(** X12. The footer has exactly the labels the responders used: a label
    is in the footer if and only if some response contains it, so a
    later responder overwrites URLs but never removes a label. *)
Theorem footer_labels (responses : list (string * gmap string string)) :
  dom (collect_footer responses) = ⋃ (dom <$> (snd <$> responses))
  /\ (forall label,
        is_Some (collect_footer responses !! label)
        <-> exists response, response ∈ responses /\ is_Some (response.2 !! label)).
Proof.
  assert (Hdom : dom (collect_footer responses) = ⋃ (dom <$> (snd <$> responses))).
  { induction responses as [|response responses IH].
    - unfold collect_footer. simpl. apply dom_empty_L.
    - rewrite collect_footer_cons, dom_union_L, IH. simpl. apply (comm_L (∪)). }
  split; [done|].
  intros label. rewrite <- elem_of_dom, Hdom, elem_of_union_list. split.
  - intros (X & HX & Hlabel).
    apply list_elem_of_fmap in HX as (m & -> & Hm).
    apply list_elem_of_fmap in Hm as (response & -> & Hresponse).
    exists response. split; [done|]. by apply elem_of_dom.
  - intros (response & Hresponse & Hlabel).
    exists (dom response.2). split; [|by apply elem_of_dom].
    apply list_elem_of_fmap. exists response.2. split; [done|].
    apply list_elem_of_fmap. by exists response.
Qed.

(** X13. SITE_URL is not among the variables the settings module reads
    when it loads, but the context processor needs it on every call: a
    configuration loaded from an environment without SITE_URL makes the
    context processor raise, AttributeError when the package version is
    unknown and ImproperlyConfigured for SITE_URL otherwise, whatever the
    plugins answer. *)
Theorem base_context_needs_SITE_URL {Request NavItem ParticipationStates : Type}
    (lib : Settings.Environ) (host : Settings.Host) (environ : gmap string string)
    (cfg : Settings.Settings)
    (states : ParticipationStates) (language : string)
    (footer_link : Signal Request (gmap string string))
    (nav_link : Signal Request (list NavItem)) (request : Request) :
  Settings.load lib host environ = Ok cfg ->
  environ !! "SITE_URL" = None ->
  ephios_base_context cfg environ states language footer_link nav_link request
  = match Settings.package_version host "ephios" with
    | None => Raise (AttributeError "EPHIOS_VERSION")
    | Some _ => Raise (ImproperlyConfigured "SITE_URL")
    end.
Proof.
  intros H Hsite. invert_load H.
  unfold ephios_base_context, settings_EPHIOS_VERSION. simpl.
  destruct (Settings.package_version host "ephios"); simpl; [|done].
  unfold Settings.GET_SITE_URL, Settings.env_str. by rewrite Hsite.
Qed.

Lemma base_context_needs_SITE_URL_witness :
  exists cfg,
    Settings.load Scenario.demo_lib Scenario.demo_host Scenario.production_env = Ok cfg
    /\ ephios_base_context cfg Scenario.production_env tt "de"
         Scenario.demo_footer_link Scenario.demo_nav_link tt
       = Raise (ImproperlyConfigured "SITE_URL").
Proof.
  destruct (Settings.load Scenario.demo_lib Scenario.demo_host Scenario.production_env)
    as [cfg|e] eqn:E; [|vm_compute in E; discriminate].
  exists cfg. split; [reflexivity|].
  apply (base_context_needs_SITE_URL Scenario.demo_lib Scenario.demo_host
           Scenario.production_env cfg tt "de"
           Scenario.demo_footer_link Scenario.demo_nav_link tt E).
  reflexivity.
Defined.

End ContextExtra.

Module AppsExtra.
Import Apps.

Lemma join_cons (sep p : string) (rest : list string) :
  rest <> [] -> join sep (p :: rest) = p +:+ sep +:+ join sep rest.
Proof. destruct rest; [done | reflexivity]. Qed.

Lemma string_app_assoc (a b c : string) : (a +:+ b) +:+ c = a +:+ (b +:+ c).
Proof.
  induction a as [|x a IH]; [reflexivity|].
  change (String x ((a +:+ b) +:+ c) = String x (a +:+ b +:+ c)). by rewrite IH.
Qed.

Lemma string_app_empty_r (a : string) : a +:+ "" = a.
Proof.
  induction a as [|x a IH]; [reflexivity|].
  change (String x (a +:+ "") = String x a). by rewrite IH.
Qed.

Lemma join_app (sep : string) (front back : list string) :
  front <> [] -> back <> [] ->
  join sep (front ++ back) = join sep front +:+ sep +:+ join sep back.
Proof.
  intros Hfront Hback. induction front as [|p front IH]; [done|].
  destruct front as [|q front].
  - change ([p] ++ back) with (p :: back). by rewrite join_cons.
  - change ((p :: q :: front) ++ back) with (p :: ((q :: front) ++ back)).
    rewrite join_cons by done. rewrite IH by done.
    rewrite (join_cons sep p (q :: front)) by done.
    by rewrite !string_app_assoc.
Qed.

(** X14. ready registers EventTypePreference once and logs one line.
    For a loaded configuration the line names the six core plugins
    first, joined by ", ", and then the discovered plugins in discovery
    order; with no discovered plugin it ends after the core plugins. *)
Theorem ready_logs_core_plugins_first (lib : Settings.Environ) (host : Settings.Host)
    (environ : gmap string string) (cfg : Settings.Settings) (st : AppState) :
  Settings.load lib host environ = Ok cfg ->
  let discovered := map snd (Settings.entry_points host "ephios.plugins") in
  preference_models (ready cfg st)
  = preference_models st ++ [("EventTypePreference", "event_type_preference_registry")]
  /\ info_log (ready cfg st)
     = info_log st
       ++ ["Installed plugins: " +:+ join ", " Settings.CORE_PLUGINS
           +:+ (if bool_decide (discovered = []) then ""
                else ", " +:+ join ", " discovered)].
Proof.
  intros H discovered. split; [reflexivity|].
  unfold ready. simpl. rewrite (SettingsFacts.load_PLUGINS _ _ _ _ H).
  fold discovered. destruct discovered as [|p rest].
  - rewrite app_nil_r. rewrite bool_decide_eq_true_2 by done.
    by rewrite string_app_empty_r.
  - rewrite bool_decide_eq_false_2 by done. by rewrite join_app.
Qed.

Lemma ready_logs_core_plugins_first_witness :
  exists cfg,
    Settings.load Scenario.demo_lib Scenario.demo_host Scenario.production_env = Ok cfg
    /\ info_log (ready cfg {| preference_models := []; info_log := [] |})
       = ["Installed plugins: " +:+ join ", " Settings.CORE_PLUGINS
          +:+ ", ephios_demo.apps.PluginApp"].
Proof.
  destruct (Settings.load Scenario.demo_lib Scenario.demo_host Scenario.production_env)
    as [cfg|e] eqn:E; [|vm_compute in E; discriminate].
  exists cfg. split; [reflexivity|].
  destruct (ready_logs_core_plugins_first Scenario.demo_lib Scenario.demo_host
              Scenario.production_env cfg {| preference_models := []; info_log := [] |} E)
    as [_ Hlog].
  rewrite Hlog. reflexivity.
Defined.

End AppsExtra.

Module ConsequencesExtra.
Import Consequences.

Section View.
Variable DB : Type.
Variable editable_consequences : UserProfile -> DB -> list Consequence.
Variable deny : Consequence -> UserProfile -> DB -> Consequence * DB.
Variable confirm : Consequence -> UserProfile -> DB -> Consequence * DB.

Local Abbreviation get_object := (get_object editable_consequences).
Local Abbreviation post := (post editable_consequences deny confirm).
Local Abbreviation dispatch := (dispatch editable_consequences deny confirm).

Lemma get_object_sound (request : Request) (w : World DB) (c : Consequence) :
  get_object request w = Ok c ->
  c ∈ editable_consequences (user request) (db w) /\ pk c = kwargs_pk request.
Proof.
  unfold Consequences.get_object, get_queryset. intros H.
  destruct (filter _ _) as [|c' [|c'' rest]] eqn:E; try discriminate.
  injection H as ->.
  assert (Hin : c ∈ filter (fun c => pk c = kwargs_pk request)
                  (editable_consequences (user request) (db w)))
    by (rewrite E; apply list_elem_of_here).
  apply list_elem_of_filter in Hin as [Hpk Hin]. done.
Qed.

Lemma respond_messages (request : Request) (c : Consequence) (w : World DB) :
  messages (respond request c w).2
  = messages w
    ++ (if is_ajax request then []
        else if bool_decide (state c = FAILED)
             then [(ERROR, "There was an error performing that action.")]
             else []).
Proof.
  unfold respond. destruct (is_ajax request); simpl; [by rewrite app_nil_r|].
  destruct (bool_decide (state c = FAILED)); simpl; [done | by rewrite app_nil_r].
Qed.

Lemma post_unfold (request : Request) (w : World DB) (c : Consequence)
    (action : option string) :
  get_object request w = Ok c ->
  POST_getitem request "action" = Ok action ->
  post request w
  = if bool_decide (action = Some "deny")
    then respond request (call_deny deny c (user request) w).1
           (call_deny deny c (user request) w).2
    else if bool_decide (action = Some "confirm")
         then respond request (call_confirm confirm c (user request) w).1
                (call_confirm confirm c (user request) w).2
         else respond request c w.
Proof. intros Hc Ha. unfold Consequences.post. by rewrite Hc, Ha. Qed.

(** X15. deny and confirm are reached only through an authenticated
    POST whose target is found in editable_consequences of the user and
    whose last action value is "deny" or "confirm": if a request records
    a method call or leaves another database, all of that holds. *)
Theorem methods_called_only_when (request : Request) (w : World DB) :
  calls (dispatch request w).2 <> calls w \/ db (dispatch request w).2 <> db w ->
  is_authenticated (user request) = true
  /\ method request = POST
  /\ exists c action,
       get_object request w = Ok c
       /\ c ∈ editable_consequences (user request) (db w)
       /\ pk c = kwargs_pk request
       /\ POST_getitem request "action" = Ok (Some action)
       /\ (action = "deny" \/ action = "confirm").
Proof.
  unfold Consequences.dispatch. intros Hchanged.
  destruct (is_authenticated (user request)); simpl in *; [|by destruct Hchanged].
  destruct (method request); simpl in *; try (by destruct Hchanged).
  split; [done|]. split; [done|].
  destruct (get_object request w) as [c|e] eqn:Hc.
  - destruct (POST_getitem request "action") as [action|e] eqn:Ha.
    + rewrite (post_unfold request w c action Hc Ha) in Hchanged.
      destruct (get_object_sound request w c Hc) as [Hin Hpk].
      destruct (decide (action = Some "deny")) as [->|Hdeny].
      { exists c, "deny". auto 10. }
      destruct (decide (action = Some "confirm")) as [->|Hconfirm].
      { exists c, "confirm". auto 10. }
      rewrite (bool_decide_eq_false_2 _ Hdeny), (bool_decide_eq_false_2 _ Hconfirm)
        in Hchanged.
      destruct (ConsequencesFacts.respond_db_calls DB request c w) as [Hdb Hcalls].
      rewrite Hdb, Hcalls in Hchanged. by destruct Hchanged.
    + unfold Consequences.post in Hchanged. rewrite Hc, Ha in Hchanged.
      by destruct Hchanged.
  - unfold Consequences.post in Hchanged. rewrite Hc in Hchanged.
    by destruct Hchanged.
Qed.

(** X16. A "deny" or "confirm" request that reaches the consequence
    calls the chosen method exactly once, on the consequence with the
    requested primary key and for the requesting user, and the database
    it leaves is the one that method returns. *)
Theorem method_called_once_on_target (request : Request) (w : World DB)
    (c : Consequence) (action : string) :
  is_authenticated (user request) = true ->
  method request = POST ->
  get_object request w = Ok c ->
  POST_getitem request "action" = Ok (Some action) ->
  action = "deny" \/ action = "confirm" ->
  calls (dispatch request w).2
  = calls w
    ++ [if bool_decide (action = "deny")
        then CallDeny (kwargs_pk request) (user_pk (user request))
        else CallConfirm (kwargs_pk request) (user_pk (user request))]
  /\ db (dispatch request w).2
     = (if bool_decide (action = "deny")
        then deny c (user request) (db w)
        else confirm c (user request) (db w)).2.
Proof.
  intros Hauth Hmethod Hc Ha Hcases.
  rewrite (ConsequencesFacts.dispatch_post _ _ _ _ _ _ Hauth Hmethod).
  rewrite (post_unfold request w c _ Hc Ha).
  destruct (get_object_sound request w c Hc) as [_ Hpk].
  destruct Hcases as [-> | ->].
  - rewrite !bool_decide_eq_true_2 by done.
    destruct (ConsequencesFacts.respond_db_calls DB request
                (call_deny deny c (user request) w).1
                (call_deny deny c (user request) w).2) as [-> ->].
    simpl. by rewrite Hpk.
  - rewrite (bool_decide_eq_false_2 (Some "confirm" = Some "deny")) by done.
    rewrite (bool_decide_eq_false_2 ("confirm" = "deny")) by done.
    rewrite bool_decide_eq_true_2 by done.
    destruct (ConsequencesFacts.respond_db_calls DB request
                (call_confirm confirm c (user request) w).1
                (call_confirm confirm c (user request) w).2) as [-> ->].
    simpl. by rewrite Hpk.
Qed.

Lemma post_messages (request : Request) (w : World DB) :
  exists flash,
    messages (post request w).2 = messages w ++ flash
    /\ (flash = [] \/ flash = [(ERROR, "There was an error performing that action.")])
    /\ (is_ajax request = true -> flash = []).
Proof.
  unfold Consequences.post.
  assert (Hrespond : forall c (w' : World DB),
            messages w' = messages w ->
            exists flash,
              messages (respond request c w').2 = messages w ++ flash
              /\ (flash = [] \/ flash
                    = [(ERROR, "There was an error performing that action.")])
              /\ (is_ajax request = true -> flash = [])).
  { intros c w' Hw'. rewrite respond_messages, Hw'. eexists. split; [reflexivity|].
    destruct (is_ajax request); [auto|].
    destruct (bool_decide (state c = FAILED)); split; auto; discriminate. }
  assert (Hnone : exists flash : list (Level * string),
            messages w = messages w ++ flash
            /\ (flash = [] \/ flash
                  = [(ERROR, "There was an error performing that action.")])
            /\ (is_ajax request = true -> flash = [])).
  { exists []. rewrite app_nil_r. auto. }
  destruct (get_object request w) as [c|e]; [|exact Hnone].
  destruct (POST_getitem request "action") as [action|e]; [|exact Hnone].
  destruct (bool_decide (action = Some "deny")); [by apply Hrespond|].
  destruct (bool_decide (action = Some "confirm")); by apply Hrespond.
Qed.

(** X17. No request removes or rewrites a stored message: the messages
    after a request are the messages before it followed by at most one
    message, the error message of the view, and a background request
    adds none, also when the consequence ends up FAILED. *)
Theorem messages_only_grow (request : Request) (w : World DB) :
  exists flash,
    messages (dispatch request w).2 = messages w ++ flash
    /\ (flash = [] \/ flash = [(ERROR, "There was an error performing that action.")])
    /\ (is_ajax request = true -> flash = []).
Proof.
  assert (Hnone : exists flash : list (Level * string),
            messages w = messages w ++ flash
            /\ (flash = [] \/ flash
                  = [(ERROR, "There was an error performing that action.")])
            /\ (is_ajax request = true -> flash = [])).
  { exists []. rewrite app_nil_r. auto. }
  unfold Consequences.dispatch.
  destruct (negb (is_authenticated (user request))); [exact Hnone|].
  destruct (method request); try exact Hnone. apply post_messages.
Qed.

(** X18. The view reads nothing of the form but the last value under
    "action": two requests that agree on method, user, target, request
    style and that value get the same response and leave the same
    state, whatever else their forms hold. *)
Theorem only_last_action_value_counts (request1 request2 : Request) (w : World DB) :
  method request1 = method request2 ->
  user request1 = user request2 ->
  kwargs_pk request1 = kwargs_pk request2 ->
  is_ajax request1 = is_ajax request2 ->
  last <$> (POST_data request1 !! "action") = last <$> (POST_data request2 !! "action") ->
  dispatch request1 w = dispatch request2 w.
Proof.
  intros Hmethod Huser Hpk Hajax Hlast.
  assert (Hitem : POST_getitem request1 "action" = POST_getitem request2 "action").
  { unfold POST_getitem.
    destruct (POST_data request1 !! "action"), (POST_data request2 !! "action");
      simpl in Hlast; congruence. }
  unfold Consequences.dispatch, Consequences.post, Consequences.get_object,
    get_queryset, respond.
  rewrite Hmethod, Huser, Hpk, Hajax, Hitem. reflexivity.
Qed.

End View.

Lemma methods_called_only_when_witness :
  exists c,
    get_object Scenario.demo_editable_consequences
      (Scenario.demo_request 1 7 [("action", ["deny"])] true) Scenario.demo_world = Ok c
    /\ pk c = 7%Z.
Proof.
  destruct (methods_called_only_when Scenario.DemoDB Scenario.demo_editable_consequences
              Scenario.demo_deny Scenario.demo_confirm
              (Scenario.demo_request 1 7 [("action", ["deny"])] true) Scenario.demo_world)
    as (_ & _ & c & action & Hc & _ & Hpk & _).
  - left. vm_compute. discriminate.
  - exists c. split; [exact Hc | exact Hpk].
Defined.

Lemma method_called_once_on_target_witness :
  calls (Scenario.demo_dispatch
           (Scenario.demo_request 1 8 [("action", ["confirm"])] false)
           Scenario.demo_world).2
  = [CallConfirm 8 1].
Proof.
  destruct (method_called_once_on_target Scenario.DemoDB
              Scenario.demo_editable_consequences Scenario.demo_deny Scenario.demo_confirm
              (Scenario.demo_request 1 8 [("action", ["confirm"])] false)
              Scenario.demo_world (Scenario.pending 8) "confirm")
    as [Hcalls _].
  - reflexivity.
  - reflexivity.
  - vm_compute. reflexivity.
  - vm_compute. reflexivity.
  - right. reflexivity.
  - exact Hcalls.
Defined.

Lemma only_last_action_value_counts_witness :
  Scenario.demo_dispatch
    (Scenario.demo_request 1 7
       [("action", ["confirm"; "deny"]); ("csrfmiddlewaretoken", ["token"])] true)
    Scenario.demo_world
  = Scenario.demo_dispatch
      (Scenario.demo_request 1 7 [("action", ["deny"])] true) Scenario.demo_world.
Proof.
  apply (only_last_action_value_counts Scenario.DemoDB
           Scenario.demo_editable_consequences Scenario.demo_deny Scenario.demo_confirm).
  - reflexivity.
  - reflexivity.
  - reflexivity.
  - reflexivity.
  - vm_compute. reflexivity.
Defined.

End ConsequencesExtra.

Module SimpleResourceExtra.
Import Orm SimpleResource.

Lemma mem_In (x : Z) (l : list Z) : mem x l = true <-> In x l.
Proof.
  unfold mem. rewrite existsb_exists. split.
  - intros (y & Hy & Heq). apply Z.eqb_eq in Heq. by subst.
  - intros Hx. exists x. split; [done | apply Z.eqb_refl].
Qed.

Lemma delete_category_Ok (c : Z) (d : DB) :
  delete_category c d
  = Ok {| shifts := shifts d;
          categories := List.filter (fun k => negb (Z.eqb (category_id k) c)) (categories d);
          resources := List.filter (fun r => negb (Z.eqb (category r) c)) (resources d);
          allocations := allocations d;
          allocation_resources :=
            List.filter
              (fun t => negb (mem (through_resource t) (map resource_id (owned c d))))
              (allocation_resources d) |}.
Proof. reflexivity. Qed.

Lemma delete_shift_Ok (s : Z) (d : DB) :
  delete_shift s d
  = Ok {| shifts := List.filter (fun k => negb (Z.eqb k s)) (shifts d);
          categories := categories d;
          resources := resources d;
          allocations := List.filter (fun a => negb (Z.eqb (shift a) s)) (allocations d);
          allocation_resources :=
            List.filter
              (fun t => negb (mem (through_allocation t) (map allocation_id (allocated s d))))
              (allocation_resources d) |}.
Proof. reflexivity. Qed.

Lemma not_dead_resource (c : Z) (d : DB) (r : Resource) :
  In r (resources d) ->
  mem (resource_id r) (map resource_id (owned c d)) = false ->
  Z.eqb (category r) c = false.
Proof.
  intros Hr Hmem. destruct (Z.eqb (category r) c) eqn:E; [|done].
  assert (Hin : In (resource_id r) (map resource_id (owned c d))).
  { apply in_map. unfold owned. apply filter_In. done. }
  apply mem_In in Hin. congruence.
Qed.

Lemma not_dead_allocation (s : Z) (d : DB) (a : ResourceAllocation) :
  In a (allocations d) ->
  mem (allocation_id a) (map allocation_id (allocated s d)) = false ->
  Z.eqb (shift a) s = false.
Proof.
  intros Ha Hmem. destruct (Z.eqb (shift a) s) eqn:E; [|done].
  assert (Hin : In (allocation_id a) (map allocation_id (allocated s d))).
  { apply in_map. unfold allocated. apply filter_In. done. }
  apply mem_In in Hin. congruence.
Qed.

(** X19. Deleting a category or a shift leaves no dangling reference:
    when every foreign key of the tables points at a stored row before
    the deletion, every one does after it (the Resources of the category,
    the allocation records of the shift and their many-to-many rows are
    gone together). *)
Theorem deletion_keeps_referential_integrity (d : DB) (k : Z) :
  referential_integrity d = true ->
  (exists d', delete_category k d = Ok d' /\ referential_integrity d' = true)
  /\ (exists d', delete_shift k d = Ok d' /\ referential_integrity d' = true).
Proof.
  unfold referential_integrity. rewrite !andb_true_iff, !forallb_forall.
  intros [[Hres Halloc] Hthrough]. split.
  - eexists. split; [apply delete_category_Ok|]. simpl.
    rewrite !andb_true_iff, !forallb_forall. split; [split|].
    + intros r [Hr Hc]%filter_In. specialize (Hres r Hr).
      apply existsb_exists in Hres as (cat & Hcat & Heq).
      apply existsb_exists. exists cat. split; [|done].
      apply filter_In. split; [done|].
      apply Z.eqb_eq in Heq. by rewrite Heq.
    + exact Halloc.
    + intros t [Ht Hdead]%filter_In. specialize (Hthrough t Ht).
      apply andb_true_iff in Hthrough as [Ha Hr]. apply andb_true_iff. split; [done|].
      apply existsb_exists in Hr as (r & Hr & Heq).
      apply existsb_exists. exists r. split; [|done].
      apply filter_In. split; [done|].
      apply Z.eqb_eq in Heq. rewrite <- Heq in Hdead.
      apply negb_true_iff in Hdead.
      by rewrite (not_dead_resource k d r Hr Hdead).
  - eexists. split; [apply delete_shift_Ok|]. simpl.
    rewrite !andb_true_iff, !forallb_forall. split; [split|].
    + exact Hres.
    + intros a [Ha Hs]%filter_In. specialize (Halloc a Ha).
      apply mem_In. apply filter_In. split; [by apply mem_In|].
      apply negb_true_iff in Hs. apply negb_true_iff.
      destruct (Z.eqb_spec (shift a) k); congruence.
    + intros t [Ht Hdead]%filter_In. specialize (Hthrough t Ht).
      apply andb_true_iff in Hthrough as [Ha Hr]. apply andb_true_iff. split; [|done].
      apply existsb_exists in Ha as (a & Ha & Heq).
      apply existsb_exists. exists a. split; [|done].
      apply filter_In. split; [done|].
      apply Z.eqb_eq in Heq. rewrite <- Heq in Hdead.
      apply negb_true_iff in Hdead.
      by rewrite (not_dead_allocation k d a Ha Hdead).
Qed.

Lemma deletion_keeps_referential_integrity_witness :
  exists d',
    delete_category 1 Scenario.demo_resources = Ok d'
    /\ referential_integrity d' = true.
Proof.
  destruct (deletion_keeps_referential_integrity Scenario.demo_resources 1)
    as [Hcategory _]; [reflexivity | exact Hcategory].
Defined.

Lemma filter_comm {A : Type} (f g : A -> bool) (l : list A) :
  List.filter f (List.filter g l) = List.filter g (List.filter f l).
Proof.
  induction l as [|x l IH]; [done|]. simpl.
  destruct (f x) eqn:Ef, (g x) eqn:Eg; simpl; rewrite ?Ef, ?Eg, IH; done.
Qed.

Lemma filter_idem {A : Type} (f : A -> bool) (l : list A) :
  List.filter f (List.filter f l) = List.filter f l.
Proof.
  induction l as [|x l IH]; [done|]. simpl.
  destruct (f x) eqn:Ef; simpl; rewrite ?Ef, IH; done.
Qed.

Lemma filter_none {A : Type} (f : A -> bool) (l : list A) :
  List.filter f (List.filter (fun x => negb (f x)) l) = [].
Proof.
  induction l as [|x l IH]; [done|]. simpl.
  destruct (f x) eqn:Ef; simpl; rewrite ?Ef, IH; done.
Qed.

Lemma filter_all {A : Type} (f : A -> bool) (l : list A) :
  (forall x, f x = true) -> List.filter f l = l.
Proof.
  intros Hf. induction l as [|x l IH]; [done|]. simpl. by rewrite Hf, IH.
Qed.

(** X20. The two deletions commute: deleting a category and then a
    shift leaves the same tables as deleting the shift and then the
    category. *)
Theorem deletions_commute (d : DB) (c s : Z) :
  (d1 <- delete_category c d ;; delete_shift s d1)
  = (d2 <- delete_shift s d ;; delete_category c d2).
Proof.
  rewrite delete_category_Ok, delete_shift_Ok. simpl.
  rewrite delete_category_Ok, delete_shift_Ok. unfold owned, allocated. simpl.
  do 2 f_equal. apply filter_comm.
Qed.

(** X21. Deleting is idempotent: a second deletion of the same category
    (or of the same shift) succeeds and changes nothing. *)
Theorem deletion_is_idempotent (d : DB) (k : Z) :
  (d1 <- delete_category k d ;; delete_category k d1) = delete_category k d
  /\ (d1 <- delete_shift k d ;; delete_shift k d1) = delete_shift k d.
Proof.
  split.
  - rewrite (delete_category_Ok k d). simpl. rewrite delete_category_Ok.
    unfold owned. simpl. rewrite !filter_idem.
    rewrite (filter_none (fun r => Z.eqb (category r) k)). simpl.
    by rewrite (filter_all (fun t : AllocationResource => true)).
  - rewrite (delete_shift_Ok k d). simpl. rewrite delete_shift_Ok.
    unfold allocated. simpl. rewrite !filter_idem.
    rewrite (filter_none (fun a => Z.eqb (shift a) k)). simpl.
    by rewrite (filter_all (fun t : AllocationResource => true)).
Qed.

Lemma NoDup_map_inj {A : Type} (f : A -> Z) (l : list A) (x y : A) :
  List.NoDup (map f l) -> In x l -> In y l -> f x = f y -> x = y.
Proof.
  induction l as [|a l IH]; [done|]. simpl.
  intros Hnodup Hx Hy Heq. apply List.NoDup_cons_iff in Hnodup as [Hfresh Hnodup].
  destruct Hx as [-> | Hx], Hy as [-> | Hy]; [done | | | by apply IH].
  - exfalso. apply Hfresh. rewrite Heq. by apply in_map.
  - exfalso. apply Hfresh. rewrite <- Heq. by apply in_map.
Qed.

(** X22. With distinct primary keys in the Resource table, deleting a
    category takes from every allocation record the Resources of that
    category and no other: what record.resources.all() returns afterwards
    is what it returned before without the Resources of the category. *)
Theorem delete_category_keeps_other_memberships (d d' : DB) (c : Z)
    (a : ResourceAllocation) :
  List.NoDup (map resource_id (resources d)) ->
  delete_category c d = Ok d' ->
  allocation_resources_all d' a
  = List.filter (fun r => negb (Z.eqb (category r) c)) (allocation_resources_all d a).
Proof.
  intros Hnodup Hdelete. rewrite delete_category_Ok in Hdelete.
  injection Hdelete as <-. unfold allocation_resources_all. simpl.
  rewrite (filter_comm (fun r => negb (Z.eqb (category r) c))).
  apply filter_ext_in. intros r [Hr Hc]%filter_In.
  apply eq_true_iff_eq. rewrite !existsb_exists. split.
  - intros (t & [Ht _]%filter_In & Hmatch). eauto.
  - intros (t & Ht & Hmatch). exists t. split; [|done].
    apply filter_In. split; [done|]. apply negb_true_iff.
    destruct (mem (through_resource t) (map resource_id (owned c d))) eqn:Hdead; [|done].
    exfalso. apply mem_In in Hdead. apply in_map_iff in Hdead as (r2 & Hid & Hr2).
    unfold owned in Hr2. apply filter_In in Hr2 as [Hr2 Hc2].
    apply andb_true_iff in Hmatch as [_ Hres]. apply Z.eqb_eq in Hres.
    assert (r2 = r) as ->.
    { apply (NoDup_map_inj resource_id (resources d)); [done..|congruence]. }
    rewrite Hc2 in Hc. discriminate.
Qed.

Lemma delete_category_keeps_other_memberships_witness :
  exists d',
    delete_category 1 Scenario.two_category_resources = Ok d'
    /\ allocation_resources_all Scenario.two_category_resources
         {| allocation_id := 5; shift := 1 |}
       = [ {| resource_id := 10; title := "Van"; category := 1 |};
           {| resource_id := 11; title := "Handset"; category := 2 |} ]
    /\ allocation_resources_all d' {| allocation_id := 5; shift := 1 |}
       = [ {| resource_id := 11; title := "Handset"; category := 2 |} ].
Proof.
  destruct (delete_category 1 Scenario.two_category_resources) as [d'|e] eqn:E;
    [|vm_compute in E; discriminate].
  exists d'. split; [reflexivity|]. split; [reflexivity|].
  rewrite (delete_category_keeps_other_memberships Scenario.two_category_resources d' 1
             {| allocation_id := 5; shift := 1 |}); [reflexivity | | exact E].
  simpl. repeat constructor; simpl; intuition discriminate.
Defined.

End SimpleResourceExtra.

Module Migration0004Extra.
Import Orm Migration0004.

Definition grant_user_field : Field :=
  ForeignKey CASCADE (Some "qualification_grants") AUTH_USER_MODEL "user profile".

Lemma has_model_spec (s : ProjectState) (model : string) :
  has_model s model = true <-> exists name, is_Some (s !! (model, name)).
Proof.
  split.
  - unfold has_model. intros ([[m name] f] & Hin & Hm)%existsb_exists.
    apply bool_decide_eq_true in Hm. simpl in Hm. subst m.
    apply list_elem_of_In, elem_of_map_to_list in Hin. eauto.
  - intros [name H]. by apply (Migration0004Facts.has_model_lookup s model name).
Qed.

Lemma has_model_insert (s : ProjectState) (model name other : string) (f : Field) :
  model <> other ->
  has_model (<[(model, name) := f]> s) other = has_model s other.
Proof.
  intros Hne. apply eq_true_iff_eq. rewrite !has_model_spec.
  split; intros [n Hn]; exists n.
  - rewrite lookup_insert_ne in Hn; [done | congruence].
  - rewrite lookup_insert_ne; [done | congruence].
Qed.

Lemma apply_operations_models (s : ProjectState) :
  has_model s "qualification" = true ->
  has_model s "qualificationgrant" = true ->
  apply operations s
  = Ok (<[("qualificationgrant", "user") := grant_user_field]>
          (<[("qualification", "included_qualifications")
               := included_qualifications_field]> s)).
Proof.
  intros H1 H2. unfold operations. simpl. unfold state_forwards. simpl.
  rewrite H1. simpl. rewrite has_model_insert by done. by rewrite H2.
Qed.

Lemma apply_operations_Ok (s : ProjectState) :
  is_Some (s !! ("qualification", "included_qualifications")) ->
  is_Some (s !! ("qualificationgrant", "user")) ->
  apply operations s
  = Ok (<[("qualificationgrant", "user") := grant_user_field]>
          (<[("qualification", "included_qualifications")
               := included_qualifications_field]> s)).
Proof.
  intros H1 H2. apply apply_operations_models.
  - by apply (Migration0004Facts.has_model_lookup s _ "included_qualifications").
  - by apply (Migration0004Facts.has_model_lookup s _ "user").
Qed.

(** X23. The migration needs the two models, not the two fields: it
    runs if and only if the project state has the models qualification
    and qualificationgrant, and then sets both fields whether or not they
    were there before. It changes no other entry, and running it a second
    time changes nothing. *)
Theorem migration_needs_models_only (s : ProjectState) :
  (succeeds (apply operations s)
   <-> has_model s "qualification" = true /\ has_model s "qualificationgrant" = true)
  /\ (forall s', apply operations s = Ok s' ->
        s' !! ("qualification", "included_qualifications")
          = Some included_qualifications_field
        /\ s' !! ("qualificationgrant", "user") = Some grant_user_field
        /\ (forall key,
              key <> ("qualification", "included_qualifications") ->
              key <> ("qualificationgrant", "user") ->
              s' !! key = s !! key)
        /\ apply operations s' = Ok s').
Proof.
  assert (Hiff : succeeds (apply operations s)
            <-> has_model s "qualification" = true
                /\ has_model s "qualificationgrant" = true).
  { split.
    - intros [s' H]. unfold operations in H. simpl in H. unfold state_forwards in H.
      simpl in H.
      destruct (has_model s "qualification") eqn:E1; [|discriminate].
      simpl in H. rewrite has_model_insert in H by done.
      destruct (has_model s "qualificationgrant") eqn:E2; [done | discriminate].
    - intros [H1 H2]. rewrite (apply_operations_models s H1 H2). by eexists. }
  split; [exact Hiff|].
  intros s' H. assert (Hs : succeeds (apply operations s)) by (by exists s').
  apply Hiff in Hs as [H1 H2]. rewrite (apply_operations_models s H1 H2) in H.
  injection H as <-.
  split; [rewrite lookup_insert_ne by done; apply lookup_insert_eq|].
  split; [apply lookup_insert_eq|].
  split; [intros key Hk1 Hk2; by rewrite !lookup_insert_ne|].
  rewrite apply_operations_Ok.
  - f_equal. apply map_eq. intros key.
    rewrite !lookup_insert. repeat case_decide; done.
  - rewrite lookup_insert_ne by done. rewrite lookup_insert_eq. eauto.
  - rewrite lookup_insert_eq. eauto.
Qed.

(** A state that has both models but not the field included_qualifications:
    the migration creates the field. *)
Example migration_creates_missing_field :
  apply operations
    (list_to_map
       [ (("qualification", "title"), OtherField);
         (("qualificationgrant", "user"),
          ForeignKey PROTECT None AUTH_USER_MODEL "user") ])
  = Ok (list_to_map
          [ (("qualification", "title"), OtherField);
            (("qualification", "included_qualifications"), included_qualifications_field);
            (("qualificationgrant", "user"), grant_user_field) ])
  /\ apply operations
       (list_to_map [ (("qualification", "title"), OtherField) ])
     = Raise (KeyError "qualificationgrant").
Proof.
  split; vm_compute; reflexivity.
Qed.

(** X24. After the migration the grants of a user are reached from the
    user as qualification_grants, and deleting a user deletes exactly the
    grants of that user, whatever on_delete the field had before. *)
Theorem grants_cascade_with_user (s : ProjectState) (d : GrantDB) (u : Z) :
  is_Some (s !! ("qualification", "included_qualifications")) ->
  is_Some (s !! ("qualificationgrant", "user")) ->
  exists s',
    apply operations s = Ok s'
    /\ user_related_all s' d u "qualification_grants"
       = Ok (List.filter (fun g => Z.eqb (grant_user g) u) (grants d))
    /\ exists d',
         delete_user s' u d = Ok d'
         /\ (forall g, In g (grants d') <-> In g (grants d) /\ grant_user g <> u)
         /\ ~ In u (users d').
Proof.
  intros H1 H2. eexists. split; [by apply apply_operations_Ok|].
  unfold user_related_all, delete_user. rewrite lookup_insert_eq. simpl.
  split; [reflexivity|]. eexists. split; [reflexivity|]. simpl. split.
  - intros g. rewrite filter_In, negb_true_iff, Z.eqb_neq. tauto.
  - rewrite filter_In, negb_true_iff, Z.eqb_neq. tauto.
Qed.

Lemma grants_cascade_with_user_witness :
  exists s' d',
    apply operations Scenario.demo_state = Ok s'
    /\ delete_user s' 1 Scenario.demo_grants = Ok d'
    /\ map grant_id (grants d') = [2%Z]
    /\ delete_user Scenario.demo_state 1 Scenario.demo_grants = Raise ProtectedError.
Proof.
  destruct (grants_cascade_with_user Scenario.demo_state Scenario.demo_grants 1)
    as (s' & Hs' & _ & d' & Hd' & _).
  - vm_compute. eauto.
  - vm_compute. eauto.
  - exists s', d'. split; [exact Hs'|]. split; [exact Hd'|]. split; [|reflexivity].
    rewrite apply_operations_Ok in Hs' by (vm_compute; eauto).
    injection Hs' as <-. vm_compute in Hd'. injection Hd' as <-. reflexivity.
Defined.

Lemma add_directed (obj x : Z) (d : QualificationDB) :
  add included_qualifications_field obj x d
  = {| qualifications := qualifications d;
       through := if has_row d obj x then through d else through d ++ [(obj, x)] |}.
Proof. reflexivity. Qed.

(** X25. Inclusion is a directed relation and add stores a row once.
    After Y.included_qualifications.add(X) the stored rows are the rows
    from before and the row from Y to X: no row from X to Y is added, so
    X does not come to include Y; adding the same inclusion again changes
    nothing. *)
Theorem add_is_directed_and_idempotent (d : QualificationDB) (X Y a b : Z) :
  has_row (add included_qualifications_field Y X d) a b
  = has_row d a b || (Z.eqb Y a && Z.eqb X b)
  /\ (X <> Y ->
      has_row (add included_qualifications_field Y X d) X Y = has_row d X Y)
  /\ add included_qualifications_field Y X (add included_qualifications_field Y X d)
     = add included_qualifications_field Y X d.
Proof.
  assert (Hrow : forall a b,
            has_row (add included_qualifications_field Y X d) a b
            = has_row d a b || (Z.eqb Y a && Z.eqb X b)).
  { intros a' b'. rewrite add_directed. unfold has_row at 1. simpl.
    destruct (has_row d Y X) eqn:E.
    - fold (has_row d a' b').
      destruct (Z.eqb_spec Y a') as [<-|]; [|by rewrite orb_false_r].
      destruct (Z.eqb_spec X b') as [<-|]; [|by rewrite orb_false_r].
      by rewrite E.
    - rewrite existsb_app. simpl. by rewrite orb_false_r. }
  split; [apply Hrow|]. split.
  - intros Hne. rewrite Hrow.
    destruct (Z.eqb_spec Y X) as [->|]; [done | by rewrite orb_false_r].
  - rewrite (add_directed Y X (add _ _ _ _)).
    rewrite Hrow, !Z.eqb_refl, orb_true_r. by rewrite add_directed.
Qed.

Example add_runs :
  through (add included_qualifications_field 3 1 Scenario.demo_qualifications)
    = [(2, 1); (3, 1)]%Z
  /\ forward_all (add included_qualifications_field 3 1 Scenario.demo_qualifications) 1
     = []
  /\ reverse_all (add included_qualifications_field 3 1 Scenario.demo_qualifications) 1
     = [2; 3]%Z.
Proof. repeat split. Qed.

End Migration0004Extra.
